(** * RFC2136 provider for libdns: a shallow embedding of [provider.go]

    The development follows the Go source top to bottom.  The functions
    of Go's standard library that decide the result of
    [normalizedNameserver] ([net.SplitHostPort], [net.JoinHostPort],
    [strings.Contains], [AddrError.Error]) and the message builders of
    [github.com/miekg/dns] ([Msg.Insert], [Msg.Remove], [Msg.RemoveRRset],
    [Msg.SetTsig]) are written out in [Module strings], [Module net] and
    [Module dns].  The tables of that library, its [IsFqdn], the clock, the
    message ids and the network itself are the fields of [Library]: the
    provider is defined, and its properties proved, for any of them. *)

From Stdlib Require Import String Ascii List ZArith Lia Bool.
Import ListNotations.

Local Open Scope string_scope.
Local Open Scope Z_scope.

(** ** Go strings: byte sequences indexed by [int] *)

Module strings.

Definition len (s : string) : Z := Z.of_nat (String.length s).

(** [s[lo:hi]] *)
Definition slice (s : string) (lo hi : Z) : string :=
  substring (Z.to_nat lo) (Z.to_nat (hi - lo)) s.

(** [s[i] == c]; [false] where Go would fault on the index. *)
Definition byteIs (s : string) (i : Z) (c : ascii) : bool :=
  match String.get (Z.to_nat i) s with
  | Some a => Ascii.eqb a c
  | None => false
  end.

Fixpoint IndexByte_from (s : string) (c : ascii) (i : Z) : Z :=
  match s with
  | EmptyString => -1
  | String a s' => if Ascii.eqb a c then i else IndexByte_from s' c (i + 1)
  end.

(** [strings.IndexByte]: first index of [c] in [s], or -1. *)
Definition IndexByte (s : string) (c : ascii) : Z := IndexByte_from s c 0.

Fixpoint LastIndexByte_from (s : string) (c : ascii) (i last : Z) : Z :=
  match s with
  | EmptyString => last
  | String a s' =>
      LastIndexByte_from s' c (i + 1) (if Ascii.eqb a c then i else last)
  end.

(** [strings.LastIndexByte]: last index of [c] in [s], or -1. *)
Definition LastIndexByte (s : string) (c : ascii) : Z :=
  LastIndexByte_from s c 0 (-1).

Fixpoint HasPrefix (s pre : string) : bool :=
  match pre, s with
  | EmptyString, _ => true
  | String _ _, EmptyString => false
  | String a pre', String b s' => Ascii.eqb a b && HasPrefix s' pre'
  end.

(** [strings.Contains]: [substr] occurs somewhere in [s]. *)
Fixpoint Contains (s substr : string) : bool :=
  match s with
  | EmptyString => HasPrefix s substr
  | String _ s' => HasPrefix s substr || Contains s' substr
  end.

End strings.

(** ** The part of package [net] that [normalizedNameserver] calls *)

Module net.
Import strings.

(** [net.AddrError] *)
Record AddrError := { Err : string; Addr : string }.

(** [AddrError.Error], the method on the pointer receiver *)
Definition Error (e : AddrError) : string :=
  let s := Err e in
  if String.eqb (Addr e) "" then s
  else "address " ++ Addr e ++ ": " ++ s.

Definition missingPort : string := "missing port in address".
Definition tooManyColons : string := "too many colons in address".

(** [net.SplitHostPort].  The first stage is the [if hostport[0] == '[']
    statement, which either returns an error or leaves [host], [j], [k]. *)
Definition SplitHostPort (hostport : string) : (string * string) + AddrError :=
  let addrErr (why : string) : (string * string) + AddrError :=
    inr {| Err := why; Addr := hostport |} in
  let i := LastIndexByte hostport ":" in
  if i <? 0 then addrErr missingPort
  else
    let stage : (string * Z * Z) + string :=
      if byteIs hostport 0 "[" then
        let end_ := IndexByte hostport "]" in
        if end_ <? 0 then inr "missing ']' in address"
        else if end_ + 1 =? len hostport then inr missingPort
        else if end_ + 1 =? i then inl (slice hostport 1 end_, 1, end_ + 1)
        else if byteIs hostport (end_ + 1) ":" then inr tooManyColons
        else inr missingPort
      else
        let host := slice hostport 0 i in
        if 0 <=? IndexByte host ":" then inr tooManyColons
        else inl (host, 0, 0)
    in
    match stage with
    | inr why => addrErr why
    | inl (host, j, k) =>
        if 0 <=? IndexByte (slice hostport j (len hostport)) "[" then
          addrErr "unexpected '[' in address"
        else if 0 <=? IndexByte (slice hostport k (len hostport)) "]" then
          addrErr "unexpected ']' in address"
        else inl (host, slice hostport (i + 1) (len hostport))
    end.

(** The reason [SplitHostPort] gives for turning an address down. *)
Definition splitFailure (hostport : string) : option string :=
  match SplitHostPort hostport with
  | inr e => Some (Err e)
  | inl _ => None
  end.

(** [net.JoinHostPort] *)
Definition JoinHostPort (host port : string) : string :=
  if 0 <=? IndexByte host ":" then "[" ++ host ++ "]:" ++ port
  else host ++ ":" ++ port.

(** [net.IP] is [[]byte]; [net.IP(s)] on a string is the conversion to
    its bytes, not a parse of an address literal. *)
Definition IP := list ascii.
Definition IP_of_string (s : string) : IP := list_ascii_of_string s.

End net.

(** ** The provider *)

(** [sync.Mutex], as far as one caller sees it. *)
Record Mutex := { locked : bool }.

Record Provider := {
  Nameserver : string;
  TSIGAlgorithm : string;
  TSIGKeyName : string;
  TSIGSecret : string;
  mutex : Mutex
}.

(** [normalizedNameserver]: append the default DNS port if none is specified. *)
Definition normalizedNameserver (p : Provider) : string :=
  match net.SplitHostPort (Nameserver p) with
  | inr err =>
      if strings.Contains (net.Error err) "missing port" then
        net.JoinHostPort (Nameserver p) "53"
      else Nameserver p
  | inl _ => Nameserver p
  end.

(** ** Results of calls: a value, a run-time panic, or a caller that waits *)

Inductive outcome (A : Type) : Type :=
| Returned (a : A)
| Panic (why : string)
| Blocked.
Arguments Returned {A} a.
Arguments Panic {A} why.
Arguments Blocked {A}.

(** The run-time error of a method call through a [nil] interface. *)
Definition nilDereference : string :=
  "runtime error: invalid memory address or nil pointer dereference".

(** ** Wire model of [github.com/miekg/dns] *)

Module dns.

Definition TypeA : Z := 1.
Definition TypeCNAME : Z := 5.
Definition TypeSOA : Z := 6.
Definition TypeMX : Z := 15.
Definition TypeTXT : Z := 16.
Definition TypeAAAA : Z := 28.
Definition TypeTSIG : Z := 250.
Definition TypeANY : Z := 255.

Definition ClassINET : Z := 1.
Definition ClassNONE : Z := 254.
Definition ClassANY : Z := 255.

Definition OpcodeQuery : Z := 0.
Definition OpcodeUpdate : Z := 5.
Definition RcodeSuccess : Z := 0.

(** [dns.RR_Header] *)
Record RR_Header := {
  Name : string;
  Rrtype : Z;
  Class : Z;
  Ttl : Z;
  Rdlength : Z
}.

(** The record structs the provider creates or receives.  [RFC3597]
    stands for every other record type a server may answer with. *)
Inductive RData :=
| A (a : net.IP)
| AAAA (aaaa : net.IP)
| CNAME (Target : string)
| MX (Preference : Z) (Mx : string)
| TXT (Txt : list string)
| ANY
| TSIG (Algorithm : string) (TimeSigned : Z) (Fudge : Z) (OrigId : Z)
| RFC3597 (Rdata : string).

Record Resource := { Hdr : RR_Header; Data : RData }.

(** [dns.RR] is an interface over pointers to record structs: a value
    of it is either [nil] or a record. *)
Definition RR := option Resource.
Definition nilRR : RR := None.

Record Question := { QName : string; Qtype : Z; Qclass : Z }.

(** [dns.Msg], with the header fields the provider reads or writes. *)
Record Msg := {
  Id : Z;
  Response : bool;
  Opcode : Z;
  RecursionDesired : bool;
  Rcode : Z;
  Compress : bool;
  Question_ : list Question;
  Answer : list RR;
  Ns : list RR;
  Extra : list RR
}.

(** [new(dns.Msg)] *)
Definition newMsg : Msg :=
  {| Id := 0; Response := false; Opcode := OpcodeQuery;
     RecursionDesired := false; Rcode := 0; Compress := false;
     Question_ := []; Answer := []; Ns := []; Extra := [] |}.

(** [dns.Client]; [TsigSecret] is a map that may be [nil]. *)
Record Client := {
  Net : string;
  SingleInflight : bool;
  TsigSecret : option (list (string * string))
}.

(** [new(dns.Client)] *)
Definition newClient : Client :=
  {| Net := ""; SingleInflight := false; TsigSecret := None |}.

Definition set_Class (c : Z) (h : RR_Header) : RR_Header :=
  {| Name := Name h; Rrtype := Rrtype h; Class := c; Ttl := Ttl h;
     Rdlength := Rdlength h |}.

Definition set_Ttl (t : Z) (h : RR_Header) : RR_Header :=
  {| Name := Name h; Rrtype := Rrtype h; Class := Class h; Ttl := t;
     Rdlength := Rdlength h |}.

Definition set_Ns (ns : list RR) (m : Msg) : Msg :=
  {| Id := Id m; Response := Response m; Opcode := Opcode m;
     RecursionDesired := RecursionDesired m; Rcode := Rcode m;
     Compress := Compress m; Question_ := Question_ m; Answer := Answer m;
     Ns := ns; Extra := Extra m |}.

Definition set_Extra (ex : list RR) (m : Msg) : Msg :=
  {| Id := Id m; Response := Response m; Opcode := Opcode m;
     RecursionDesired := RecursionDesired m; Rcode := Rcode m;
     Compress := Compress m; Question_ := Question_ m; Answer := Answer m;
     Ns := Ns m; Extra := ex |}.

(** Conversion to [uint64]. *)
Definition uint64 (z : Z) : Z := z mod 2 ^ 64.

(** [Msg.SetTsig]: appends a TSIG record to the additional section, with
    [t.TimeSigned = uint64(timesigned)] and [t.OrigId = dns.Id]. *)
Definition SetTsig (m : Msg) (z algo : string) (fudge timesigned : Z) : Msg :=
  let t := {| Hdr := {| Name := z; Rrtype := TypeTSIG; Class := ClassANY;
                        Ttl := 0; Rdlength := 0 |};
              Data := TSIG algo (uint64 timesigned) fudge (Id m) |} in
  set_Extra (Extra m ++ [Some t])%list m.

(** [rr.Header()]: a method call on the interface value. *)
Definition Header (r : RR) : outcome RR_Header :=
  match r with
  | Some v => Returned (Hdr v)
  | None => Panic nilDereference
  end.

(** The loop of [Msg.Insert]:
    [r.Header().Class = u.Question[0].Qclass; u.Ns = append(u.Ns, r)]. *)
Fixpoint Insert_loop (qclass : Z) (ns rr : list RR) : outcome (list RR) :=
  match rr with
  | [] => Returned ns
  | r :: rest =>
      match r with
      | None => Panic nilDereference
      | Some v =>
          let v' := {| Hdr := set_Class qclass (Hdr v); Data := Data v |} in
          Insert_loop qclass (ns ++ [Some v'])%list rest
      end
  end.

(** [Msg.Insert], RFC 2136 section 2.5.1. *)
Definition Insert (u : Msg) (rr : list RR) : outcome Msg :=
  match Question_ u with
  | [] => Panic "dns: empty question section"
  | q :: _ =>
      match Insert_loop (Qclass q) (Ns u) rr with
      | Returned ns => Returned (set_Ns ns u)
      | Panic why => Panic why
      | Blocked => Blocked
      end
  end.

(** The loop of [Msg.RemoveRRset]: one [ANY] record of class ANY and
    TTL 0 per given record, with that record's name and type. *)
Fixpoint RemoveRRset_loop (ns rr : list RR) : outcome (list RR) :=
  match rr with
  | [] => Returned ns
  | r :: rest =>
      match r with
      | None => Panic nilDereference
      | Some v =>
          let h := Hdr v in
          let any := {| Hdr := {| Name := Name h; Rrtype := Rrtype h;
                                  Class := ClassANY; Ttl := 0;
                                  Rdlength := 0 |};
                        Data := ANY |} in
          RemoveRRset_loop (ns ++ [Some any])%list rest
      end
  end.

(** [Msg.RemoveRRset], RFC 2136 section 2.5.2. *)
Definition RemoveRRset (u : Msg) (rr : list RR) : outcome Msg :=
  match RemoveRRset_loop (Ns u) rr with
  | Returned ns => Returned (set_Ns ns u)
  | Panic why => Panic why
  | Blocked => Blocked
  end.

(** The loop of [Msg.Remove]: the record itself with class NONE, TTL 0. *)
Fixpoint Remove_loop (ns rr : list RR) : outcome (list RR) :=
  match rr with
  | [] => Returned ns
  | r :: rest =>
      match r with
      | None => Panic nilDereference
      | Some v =>
          let v' := {| Hdr := set_Ttl 0 (set_Class ClassNONE (Hdr v));
                       Data := Data v |} in
          Remove_loop (ns ++ [Some v'])%list rest
      end
  end.

(** [Msg.Remove], RFC 2136 section 2.5.4. *)
Definition Remove (u : Msg) (rr : list RR) : outcome Msg :=
  match Remove_loop (Ns u) rr with
  | Returned ns => Returned (set_Ns ns u)
  | Panic why => Panic why
  | Blocked => Blocked
  end.

End dns.

(** Go's [error] values: the text of [Error()] and what [Unwrap()] gives. *)
Inductive error : Type :=
| errorString (text : string)
| wrapError (text : string) (wrapped : error).

Definition Error (e : error) : string :=
  match e with
  | errorString text => text
  | wrapError text _ => text
  end.

(** [fmt.Errorf(format)] with a [%s] verb last: no wrapped error. *)
Definition Errorf_s (prefix arg : string) : error :=
  errorString (prefix ++ arg).

(** [fmt.Errorf(format, err)] with a [%w] verb last. *)
Definition Errorf_w (prefix : string) (err : error) : error :=
  wrapError (prefix ++ Error err) err.

(** [libdns.Record], with [TTL] a [time.Duration] (an [int64]). *)
Record Record_ := {
  Name : string;
  Type_ : string;
  Value : string;
  TTL : Z
}.

(** A Go slice that may be [nil]. *)
Definition slice (A : Type) := option (list A).
Definition nilSlice {A : Type} : slice A := None.
Definition elements {A : Type} (s : slice A) : list A :=
  match s with Some l => l | None => [] end.
(** [append(s, x)] *)
Definition append {A : Type} (s : slice A) (x : A) : slice A :=
  Some (elements s ++ [x])%list.

(** Conversion to [uint32]. *)
Definition uint32 (z : Z) : Z := z mod 2 ^ 32.

(** [len(p.TSIGKeyName) > 0 && len(p.TSIGSecret) > 0] *)
Definition tsigConfigured (p : Provider) : bool :=
  (0 <? strings.len (TSIGKeyName p)) && (0 <? strings.len (TSIGSecret p)).

(** The four exported fields of [Provider]. *)
Definition config (p : Provider) : string * string * string * string :=
  (Nameserver p, TSIGAlgorithm p, TSIGKeyName p, TSIGSecret p).

Definition set_mutex (m : Mutex) (p : Provider) : Provider :=
  {| Nameserver := Nameserver p; TSIGAlgorithm := TSIGAlgorithm p;
     TSIGKeyName := TSIGKeyName p; TSIGSecret := TSIGSecret p; mutex := m |}.

(** The switch of [rrFromRecord] compares [record.Type] with these. *)
Definition supportedTypes : list string := ["A"; "AAAA"; "CNAME"; "MX"; "TXT"].

(** What the provider takes from outside its own source: tables and
    functions of [github.com/miekg/dns], and the world beyond the process
    (the server, the clock, the source of message ids). *)
Record Library (World : Type) := {
  (** [dns.StringToType[k]]: the type code, 0 for a key not in the map. *)
  StringToType : string -> Z;
  (** [dns.Type(t).String()] *)
  TypeString : Z -> string;
  (** [rr.String()], the presentation form of a record. *)
  rrString : dns.Resource -> string;
  (** [dns.RcodeToString[rcode]], the empty string for a code not in the map. *)
  RcodeToString : Z -> string;
  (** [dns.IsFqdn] *)
  IsFqdn : string -> bool;
  (** [dns.Id()] *)
  dnsId : World -> Z * World;
  (** [time.Now().Unix()] *)
  timeNowUnix : World -> Z * World;
  (** One request and its reply, or the error of the exchange. *)
  netExchange :
    dns.Client -> dns.Msg -> string -> World ->
    (option dns.Msg * option error) * World
}.
Arguments StringToType {World} _ _.
Arguments TypeString {World} _ _.
Arguments rrString {World} _ _.
Arguments RcodeToString {World} _ _.
Arguments IsFqdn {World} _ _.
Arguments dnsId {World} _ _.
Arguments timeNowUnix {World} _ _.
Arguments netExchange {World} _ _ _ _ _.

Section Provider.

Variable World : Type.
Variable lib : Library World.

(** [dns.Fqdn] *)
Definition Fqdn (s : string) : string :=
  if IsFqdn lib s then s else s ++ ".".

(** *** State threaded through a call *)

Record State := {
  provider : Provider;
  world : World;
  sent : list (dns.Msg * string)   (* every message handed to the network *)
}.

Definition Op (A : Type) : Type := State -> outcome A * State.

Definition ret {A : Type} (a : A) : Op A := fun s => (Returned a, s).

Definition bind {A B : Type} (m : Op A) (k : A -> Op B) : Op B :=
  fun s =>
    match m s with
    | (Returned a, s') => k a s'
    | (Panic why, s') => (Panic why, s')
    | (Blocked, s') => (Blocked, s')
    end.

Definition lift {A : Type} (o : outcome A) : Op A := fun s => (o, s).

Definition getProvider : Op Provider := fun s => (Returned (provider s), s).

Definition withWorld {A : Type} (f : World -> A * World) : Op A :=
  fun s =>
    let (a, w) := f (world s) in
    (Returned a, {| provider := provider s; world := w; sent := sent s |}).

Definition set_provider_mutex (m : Mutex) (s : State) : State :=
  {| provider := set_mutex m (provider s); world := world s;
     sent := sent s |}.

(** [p.mutex.Lock()]: a caller that finds the mutex held waits. *)
Definition Lock : Op unit :=
  fun s =>
    if locked (mutex (provider s)) then (Blocked, s)
    else (Returned tt, set_provider_mutex {| locked := true |} s).

(** [defer p.mutex.Unlock()]: runs when the body returns or panics. *)
Definition deferUnlock {A : Type} (body : Op A) : Op A :=
  fun s =>
    match body s with
    | (Blocked, s') => (Blocked, s')
    | (r, s') => (r, set_provider_mutex {| locked := false |} s')
    end.

(** [c.Exchange(msg, address)], without the round-trip time. *)
Definition Exchange (c : dns.Client) (m : dns.Msg) (address : string)
  : Op (option dns.Msg * option error) :=
  fun s =>
    let (r, w) := netExchange lib c m address (world s) in
    (Returned r,
     {| provider := provider s; world := w;
        sent := (sent s ++ [(m, address)])%list |}).

(** [dns.Exchange(m, a)]: a fresh UDP client. *)
Definition dnsExchange (m : dns.Msg) (a : string)
  : Op (option dns.Msg * option error) :=
  Exchange {| dns.Net := "udp"; dns.SingleInflight := false;
              dns.TsigSecret := None |} m a.

(** [Msg.SetUpdate] *)
Definition SetUpdate (z : string) (m : dns.Msg) : Op dns.Msg :=
  bind (withWorld (dnsId lib)) (fun id =>
  ret {| dns.Id := id; dns.Response := false;
         dns.Opcode := dns.OpcodeUpdate;
         dns.RecursionDesired := dns.RecursionDesired m;
         dns.Rcode := dns.Rcode m; dns.Compress := false;
         dns.Question_ := [ {| dns.QName := z; dns.Qtype := dns.TypeSOA;
                               dns.Qclass := dns.ClassINET |} ];
         dns.Answer := dns.Answer m; dns.Ns := dns.Ns m;
         dns.Extra := dns.Extra m |}).

Notation "x <- m ;; k" := (bind m (fun x => k))
  (at level 61, m at next level, right associativity).

(** *** [GetRecords] *)

(** The body of the loop over [in.Answer]: the answer-to-record mapping. *)
Definition recordFromRR (record : dns.RR) : outcome Record_ :=
  match record with
  | None => Panic nilDereference          (* record.Header() *)
  | Some v =>
      let header := dns.Hdr v in
      Returned {| Name := dns.Name header;
                  Type_ := TypeString lib (dns.Rrtype header);
                  Value := rrString lib v;
                  TTL := dns.Ttl header |}
  end.

Fixpoint collectRecords (answer : list dns.RR) (fetchedRecords : slice Record_)
  : outcome (slice Record_) :=
  match answer with
  | [] => Returned fetchedRecords
  | record :: rest =>
      match recordFromRR record with
      | Returned r => collectRecords rest (append fetchedRecords r)
      | Panic why => Panic why
      | Blocked => Blocked
      end
  end.

Definition GetRecords (zone : string) : Op (slice Record_ * option error) :=
  _ <- Lock ;;
  deferUnlock (
    id <- withWorld (dnsId lib) ;;
    let msg :=
      {| dns.Id := id; dns.Response := false; dns.Opcode := dns.OpcodeQuery;
         dns.RecursionDesired := true; dns.Rcode := 0;
         dns.Compress := false;
         dns.Question_ := [ {| dns.QName := zone; dns.Qtype := dns.TypeANY;
                               dns.Qclass := dns.ClassINET |} ];
         dns.Answer := []; dns.Ns := []; dns.Extra := [] |} in
    p <- getProvider ;;
    reply <- dnsExchange msg (normalizedNameserver p) ;;
    match reply with
    | (_, Some err) => ret (nilSlice, Some err)
    | (None, None) => lift (Panic nilDereference)
    | (Some in_, None) =>
        fetchedRecords <- lift (collectRecords (dns.Answer in_) (Some [])) ;;
        ret (fetchedRecords, None)
    end).

(** *** Helpers of the update operations *)

(** [makeClient] *)
Definition makeClient (p : Provider) : dns.Client :=
  let c := dns.newClient in
  let c := {| dns.Net := dns.Net c; dns.SingleInflight := true;
              dns.TsigSecret := dns.TsigSecret c |} in
  if tsigConfigured p then
    {| dns.Net := dns.Net c; dns.SingleInflight := dns.SingleInflight c;
       dns.TsigSecret := Some [(Fqdn (TSIGKeyName p), TSIGSecret p)] |}
  else c.

(** [configureMessage]: the arguments of [SetTsig], the clock among
    them, are evaluated only inside the [if]. *)
Definition configureMessage (msg : dns.Msg) : Op dns.Msg :=
  p <- getProvider ;;
  if tsigConfigured p then
    now <- withWorld (timeNowUnix lib) ;;
    ret (dns.SetTsig msg (Fqdn (TSIGKeyName p)) (Fqdn (TSIGAlgorithm p))
           300 now)
  else ret msg.

(** The [header] value at the top of [rrFromRecord]. *)
Definition rrHeader (zone : string) (record : Record_) : dns.RR_Header :=
  {| dns.Name := zone;
     dns.Rrtype := StringToType lib (Type_ record);
     dns.Class := dns.ClassINET;
     dns.Ttl := uint32 (TTL record);
     dns.Rdlength := 0 |}.

(** The struct a clause of the switch allocates and fills, [None] for the
    [default] clause.  Each clause binds it with [rr := new(...)], a
    short variable declaration: a variable of the clause's own block. *)
Definition clauseRecord (header : dns.RR_Header) (record : Record_)
  : option dns.Resource :=
  if (Type_ record =? "A")%string then
    Some {| dns.Hdr := header;
            dns.Data := dns.A (net.IP_of_string (Value record)) |}
  else if (Type_ record =? "AAAA")%string then
    Some {| dns.Hdr := header;
            dns.Data := dns.AAAA (net.IP_of_string (Value record)) |}
  else if (Type_ record =? "CNAME")%string then
    Some {| dns.Hdr := header; dns.Data := dns.CNAME (Value record) |}
  else if (Type_ record =? "MX")%string then
    Some {| dns.Hdr := header; dns.Data := dns.MX 0 (Value record) |}
  else if (Type_ record =? "TXT")%string then
    Some {| dns.Hdr := header; dns.Data := dns.TXT [Value record] |}
  else None.

(** [rrFromRecord].  [var rr dns.RR] declares the function's [rr], a nil
    interface.  No clause assigns to it (each has its own [rr], see
    [clauseRecord]), and [return rr, nil] after the switch, outside every
    clause's block, names the function's. *)
Definition rrFromRecord (zone : string) (record : Record_)
  : dns.RR * option error :=
  let header := rrHeader zone record in
  let rr : dns.RR := dns.nilRR in
  match clauseRecord header record with
  | Some _ => (rr, None)
  | None => (dns.nilRR, Some (Errorf_s "unsupported type " (Type_ record)))
  end.

(** *** [AppendRecords], [DeleteRecords], [SetRecords]

    The three loops have the same text, error messages included, but for
    the calls between [msg.SetUpdate(zone)] and [p.configureMessage(msg)]:
    [build] stands for those. *)
Fixpoint updateLoop (build : dns.Msg -> list dns.RR -> outcome dns.Msg)
    (c : dns.Client) (nameserver zone : string)
    (records : list Record_) (doneRecords : slice Record_)
  : Op (slice Record_ * option error) :=
  match records with
  | [] => ret (doneRecords, None)
  | record :: rest =>
      match rrFromRecord zone record with
      | (_, Some err) =>
          ret (doneRecords, Some (Errorf_w "failed to append record: " err))
      | (rr, None) =>
          let rrs := [rr] in
          msg <- SetUpdate zone dns.newMsg ;;
          msg <- lift (build msg rrs) ;;
          msg <- configureMessage msg ;;
          reply <- Exchange c msg nameserver ;;
          match reply with
          | (_, Some err) =>
              ret (doneRecords,
                   Some (Errorf_w "failed to append record, " err))
          | (reply, None) =>
              let next :=
                updateLoop build c nameserver zone rest
                  (append doneRecords record) in
              match reply with
              | Some r =>
                  if negb (dns.Rcode r =? dns.RcodeSuccess) then
                    ret (doneRecords,
                         Some (Errorf_s
                                 "failed to append record, server replied "
                                 (RcodeToString lib (dns.Rcode r))))
                  else next
              | None => next
              end
          end
      end
  end.

(** The shared frame of the three operations. *)
Definition updateRecords (build : dns.Msg -> list dns.RR -> outcome dns.Msg)
    (zone : string) (records : list Record_)
  : Op (slice Record_ * option error) :=
  _ <- Lock ;;
  deferUnlock (
    p <- getProvider ;;
    let c := makeClient p in
    let nameserver := normalizedNameserver p in
    updateLoop build c nameserver zone records nilSlice).

(** [msg.Insert(rrs)] *)
Definition buildAppend (msg : dns.Msg) (rrs : list dns.RR) : outcome dns.Msg :=
  dns.Insert msg rrs.

(** [msg.Remove(rrs)] *)
Definition buildDelete (msg : dns.Msg) (rrs : list dns.RR) : outcome dns.Msg :=
  dns.Remove msg rrs.

(** [msg.RemoveRRset(rrs); msg.Insert(rrs)] *)
Definition buildSet (msg : dns.Msg) (rrs : list dns.RR) : outcome dns.Msg :=
  match dns.RemoveRRset msg rrs with
  | Returned msg' => dns.Insert msg' rrs
  | Panic why => Panic why
  | Blocked => Blocked
  end.

Definition AppendRecords (zone : string) (records : list Record_)
  : Op (slice Record_ * option error) :=
  updateRecords buildAppend zone records.

Definition DeleteRecords (zone : string) (records : list Record_)
  : Op (slice Record_ * option error) :=
  updateRecords buildDelete zone records.

Definition SetRecords (zone : string) (records : list Record_)
  : Op (slice Record_ * option error) :=
  updateRecords buildSet zone records.

End Provider.

Arguments provider {World} _.
Arguments world {World} _.
Arguments sent {World} _.
Arguments Build_State {World} _ _ _.
Arguments ret {World A} _ _.
Arguments bind {World A B} _ _ _.
Arguments lift {World A} _ _.
Arguments getProvider {World} _.
Arguments withWorld {World A} _ _.
Arguments set_provider_mutex {World} _ _.
Arguments Lock {World} _.
Arguments deferUnlock {World A} _ _.
Arguments Exchange {World} _ _ _ _ _.
Arguments dnsExchange {World} _ _ _ _.
Arguments SetUpdate {World} _ _ _ _.
Arguments Fqdn {World} _ _.
Arguments recordFromRR {World} _ _.
Arguments collectRecords {World} _ _ _.
Arguments GetRecords {World} _ _ _.
Arguments makeClient {World} _ _.
Arguments configureMessage {World} _ _ _.
Arguments rrHeader {World} _ _ _.
Arguments rrFromRecord {World} _ _ _.
Arguments updateLoop {World} _ _ _ _ _ _ _ _.
Arguments updateRecords {World} _ _ _ _ _.
Arguments AppendRecords {World} _ _ _ _.
Arguments DeleteRecords {World} _ _ _ _.
Arguments SetRecords {World} _ _ _ _.

(** The caller's view of a finished call. *)
Definition result {World A : Type} (r : outcome A * State World) : outcome A :=
  fst r.
Definition after {World A : Type} (r : outcome A * State World) : State World :=
  snd r.

(** A computation that leaves the four exported fields of the provider as
    it found them, however it ends. *)
Definition keepsConfig {World A : Type} (m : State World -> outcome A * State World)
  : Prop :=
  forall s, config (provider (after (m s))) = config (provider s).

(** [s] ends with a dot. *)
Definition trailingDot (s : string) : Prop := exists s', s = s' ++ ".".

(** ** A concrete library and world, for running the operations *)

Module Example.

(** An excerpt of [dns.StringToType]. *)
Definition typeCodes (k : string) : Z :=
  if (k =? "A")%string then dns.TypeA
  else if (k =? "AAAA")%string then dns.TypeAAAA
  else if (k =? "CNAME")%string then dns.TypeCNAME
  else if (k =? "MX")%string then dns.TypeMX
  else if (k =? "TXT")%string then dns.TypeTXT
  else if (k =? "SOA")%string then dns.TypeSOA
  else if (k =? "SRV")%string then 33
  else 0.

Definition typeNames (t : Z) : string :=
  if t =? dns.TypeA then "A"
  else if t =? dns.TypeAAAA then "AAAA"
  else if t =? dns.TypeCNAME then "CNAME"
  else if t =? dns.TypeMX then "MX"
  else if t =? dns.TypeTXT then "TXT"
  else "TYPE".

(** Stands for the presentation form: only the owner name is rendered. *)
Definition presentation (r : dns.Resource) : string := dns.Name (dns.Hdr r).

Definition rcodeNames (rcode : Z) : string :=
  if rcode =? 0 then "NOERROR"
  else if rcode =? 5 then "REFUSED"
  else "".

(** Fully qualified: the last byte is a dot. *)
Definition lastByteIsDot (s : string) : bool :=
  strings.byteIs s (strings.len s - 1) ".".

(** The world is a counter: ids and seconds are read off it, and every
    request is answered with an empty successful reply. *)
Definition lib : Library nat :=
  {| StringToType := typeCodes;
     TypeString := typeNames;
     rrString := presentation;
     RcodeToString := rcodeNames;
     IsFqdn := lastByteIsDot;
     dnsId := fun w => (Z.of_nat w, S w);
     timeNowUnix := fun w => (1600000000 + Z.of_nat w, w);
     netExchange := fun _ m _ w =>
       ((Some {| dns.Id := dns.Id m; dns.Response := true;
                 dns.Opcode := dns.Opcode m;
                 dns.RecursionDesired := dns.RecursionDesired m;
                 dns.Rcode := dns.RcodeSuccess; dns.Compress := false;
                 dns.Question_ := dns.Question_ m; dns.Answer := [];
                 dns.Ns := []; dns.Extra := [] |}, None), S w) |}.

Definition withNameserver (address : string) : Provider :=
  {| Nameserver := address; TSIGAlgorithm := ""; TSIGKeyName := "";
     TSIGSecret := ""; mutex := {| locked := false |} |}.

(** The key of the README. *)
Definition signing : Provider :=
  {| Nameserver := "ns.example.org"; TSIGAlgorithm := "hmac-sha256";
     TSIGKeyName := "libdns";
     TSIGSecret := "rfXPtMx3r1kl0QzpuwBtexbl2pUJesmZc35UcvzGdwE=";
     mutex := {| locked := false |} |}.

Definition start (p : Provider) : State nat :=
  {| provider := p; world := 0%nat; sent := [] |}.

Definition zone : string := "example.org.".

Definition aRecord : Record_ :=
  {| Name := "example.org."; Type_ := "A"; Value := "127.0.0.1"; TTL := 300 |}.

Definition txtRecord : Record_ :=
  {| Name := "test.example.org."; Type_ := "TXT"; Value := "v1"; TTL := 300 |}.

Definition srvRecord : Record_ :=
  {| Name := "_sip._tcp.example.org."; Type_ := "SRV";
     Value := "0 5 5060 sip.example.org."; TTL := 300 |}.

End Example.

(** ** Vocabulary of the further properties *)

(** The byte [c] does not occur in [s]: [strings.IndexByte(s, c) < 0]. *)
Definition lacks (c : ascii) (s : string) : Prop := strings.IndexByte s c < 0.

(** A host or port text without any of the bytes [SplitHostPort] looks for. *)
Definition plain (s : string) : Prop :=
  lacks ":" s /\ lacks "[" s /\ lacks "]" s.

(** The provider configured with another address. *)
Definition set_Nameserver (address : string) (p : Provider) : Provider :=
  {| Nameserver := address; TSIGAlgorithm := TSIGAlgorithm p;
     TSIGKeyName := TSIGKeyName p; TSIGSecret := TSIGSecret p;
     mutex := mutex p |}.

(** [v, ok := m[k]] on the entries of a [map[string]string]. *)
Fixpoint mapIndex (m : list (string * string)) (k : string) : option string :=
  match m with
  | [] => None
  | (k', v) :: rest => if (k' =? k)%string then Some v else mapIndex rest k
  end.

(** [c.TsigSecret[name]]: the secret a client holds for a key name; a nil
    map has none. *)
Definition tsigSecretFor (c : dns.Client) (name : string) : option string :=
  match dns.TsigSecret c with
  | Some m => mapIndex m name
  | None => None
  end.

(** The client [dns.Exchange] makes for itself. *)
Definition udpClient : dns.Client :=
  {| dns.Net := "udp"; dns.SingleInflight := false; dns.TsigSecret := None |}.

(** The record that the loop of [GetRecords] appends for an answer. *)
Definition fetched {World : Type} (lib : Library World) (v : dns.Resource)
  : Record_ :=
  {| Name := dns.Name (dns.Hdr v);
     Type_ := TypeString lib (dns.Rrtype (dns.Hdr v));
     Value := rrString lib v;
     TTL := dns.Ttl (dns.Hdr v) |}.

(** The message [GetRecords] builds for a zone, given the id drawn. *)
Definition anyQuery (zone : string) (id : Z) : dns.Msg :=
  {| dns.Id := id; dns.Response := false; dns.Opcode := dns.OpcodeQuery;
     dns.RecursionDesired := true; dns.Rcode := 0; dns.Compress := false;
     dns.Question_ := [ {| dns.QName := zone; dns.Qtype := dns.TypeANY;
                           dns.Qclass := dns.ClassINET |} ];
     dns.Answer := []; dns.Ns := []; dns.Extra := [] |}.

(** Two more worlds: a server that answers every query with an SOA and a
    TXT record, and a network on which every exchange times out. *)
Module Scenario.

Definition soa : dns.Resource :=
  {| dns.Hdr := {| dns.Name := "example.org."; dns.Rrtype := dns.TypeSOA;
                   dns.Class := dns.ClassINET; dns.Ttl := 3600;
                   dns.Rdlength := 0 |};
     dns.Data := dns.RFC3597 "ns.example.org. admin.example.org. 1 2 3 4 5" |}.

Definition txt : dns.Resource :=
  {| dns.Hdr := {| dns.Name := "test.example.org."; dns.Rrtype := dns.TypeTXT;
                   dns.Class := dns.ClassINET; dns.Ttl := 300;
                   dns.Rdlength := 0 |};
     dns.Data := dns.TXT ["v1"] |}.

Definition withExchange
    (exchange : dns.Client -> dns.Msg -> string -> nat ->
                (option dns.Msg * option error) * nat)
  : Library nat :=
  {| StringToType := StringToType Example.lib;
     TypeString := TypeString Example.lib;
     rrString := rrString Example.lib;
     RcodeToString := RcodeToString Example.lib;
     IsFqdn := IsFqdn Example.lib;
     dnsId := dnsId Example.lib;
     timeNowUnix := timeNowUnix Example.lib;
     netExchange := exchange |}.

Definition answering : Library nat :=
  withExchange (fun _ m _ w =>
    ((Some {| dns.Id := dns.Id m; dns.Response := true;
              dns.Opcode := dns.Opcode m;
              dns.RecursionDesired := dns.RecursionDesired m;
              dns.Rcode := dns.RcodeSuccess; dns.Compress := false;
              dns.Question_ := dns.Question_ m;
              dns.Answer := [Some soa; Some txt];
              dns.Ns := []; dns.Extra := [] |}, None), S w)).

Definition timeout : error := errorString "read udp: i/o timeout".

Definition unreachable : Library nat :=
  withExchange (fun _ _ _ w => ((None, Some timeout), S w)).

End Scenario.

(** A computation that leaves the provider, mutex included, as it found it
    and never waits. *)
Definition keepsProvider {World A : Type}
    (m : State World -> outcome A * State World) : Prop :=
  forall s, provider (after (m s)) = provider s /\ result (m s) <> Blocked.

(** * Properties *)

(** ** Strings *)

Lemma append_assoc_string (a b c : string) : ((a ++ b) ++ c = a ++ (b ++ c))%string.
Proof.
  induction a as [|x a IH]; simpl; [reflexivity | now rewrite IH].
Qed.

Lemma IndexByte_from_bounds (s : string) (c : ascii) (i : Z) :
  strings.IndexByte_from s c i = -1 \/ i <= strings.IndexByte_from s c i.
Proof.
  revert i; induction s as [|a s IH]; intro i; simpl.
  - now left.
  - destruct (Ascii.eqb a c).
    + right; lia.
    + destruct (IH (i + 1)) as [H | H]; [now left | right; lia].
Qed.

Lemma LastIndexByte_from_absent (s : string) (c : ascii) (i last : Z) :
  0 <= i ->
  strings.IndexByte_from s c i < 0 ->
  strings.LastIndexByte_from s c i last = last.
Proof.
  revert i last; induction s as [|a s IH]; intros i last Hi Habs; simpl in *.
  - reflexivity.
  - destruct (Ascii.eqb a c).
    + lia.
    + apply IH; [lia | assumption].
Qed.

Lemma HasPrefix_app (pre s : string) : strings.HasPrefix (pre ++ s) pre = true.
Proof.
  induction pre as [|a pre IH]; simpl.
  - destruct s; reflexivity.
  - now rewrite Ascii.eqb_refl, IH.
Qed.

Lemma Contains_of_prefix (s pre : string) :
  strings.HasPrefix s pre = true -> strings.Contains s pre = true.
Proof.
  intro H; destruct s; simpl in *; [assumption | now rewrite H].
Qed.

Lemma Contains_app (a b c : string) : strings.Contains (a ++ b ++ c) b = true.
Proof.
  induction a as [|x a IH]; simpl.
  - apply Contains_of_prefix, HasPrefix_app.
  - rewrite IH; apply orb_true_r.
Qed.

(** ** [normalizedNameserver] *)

(** [SplitHostPort] on addresses whose results are fixed by the tests of
    package [net]: splits, and failures with their reasons. *)
Lemma SplitHostPort_known_results :
  map net.SplitHostPort ["localhost:http"; "127.0.0.1:80"; "[::1]:http"; ":80"]
  = [inl ("localhost", "http"); inl ("127.0.0.1", "80"); inl ("::1", "http");
     inl ("", "80")] /\
  map net.splitFailure
    ["golang.org"; "127.0.0.1"; "[::1]"; "[localhost]"; "::1";
     "fe80::1%lo0:80"; "[foo:bar]"; "[foo:bar]baz"; "[foo]bar:baz";
     "[foo]:[bar]:baz"; "[foo]:[bar]baz"; "foo[bar]:baz"; "foo]bar:baz"]
  = [Some "missing port in address"; Some "missing port in address";
     Some "missing port in address"; Some "missing port in address";
     Some "too many colons in address"; Some "too many colons in address";
     Some "missing port in address"; Some "missing port in address";
     Some "missing port in address"; Some "too many colons in address";
     Some "unexpected '[' in address"; Some "unexpected '[' in address";
     Some "unexpected ']' in address"].
Proof.
  split; reflexivity.
Qed.

(** An address without any colon has no port: [SplitHostPort] reports it. *)
Lemma SplitHostPort_no_colon (address : string) :
  strings.IndexByte address ":" < 0 ->
  net.SplitHostPort address
  = inr {| net.Err := net.missingPort; net.Addr := address |}.
Proof.
  intro H. unfold net.SplitHostPort, strings.LastIndexByte.
  rewrite (LastIndexByte_from_absent address ":" 0 (-1)); [reflexivity | lia | exact H].
Qed.

Lemma missingPort_mentioned (address : string) :
  strings.Contains
    (net.Error {| net.Err := net.missingPort; net.Addr := address |})
    "missing port" = true.
Proof.
  unfold net.Error; simpl net.Err; simpl net.Addr.
  destruct (String.eqb address "").
  - reflexivity.
  - change net.missingPort with ("missing port" ++ " in address")%string.
    rewrite <- (append_assoc_string address ": ").
    rewrite <- (append_assoc_string "address ").
    apply Contains_app.
Qed.

(** The port is appended to every address that has no colon at all. *)
Lemma normalizedNameserver_no_colon (p : Provider) :
  strings.IndexByte (Nameserver p) ":" < 0 ->
  normalizedNameserver p = (Nameserver p ++ ":53")%string.
Proof.
  intro H. unfold normalizedNameserver.
  rewrite (SplitHostPort_no_colon _ H), missingPort_mentioned.
  unfold net.JoinHostPort.
  destruct (0 <=? strings.IndexByte (Nameserver p) ":") eqn:E.
  - apply Z.leb_le in E; lia.
  - reflexivity.
Qed.

(** An address that [SplitHostPort] accepts is returned as it is. *)
Lemma normalizedNameserver_explicit_port (p : Provider) (host port : string) :
  net.SplitHostPort (Nameserver p) = inl (host, port) ->
  normalizedNameserver p = Nameserver p.
Proof.
  intro H. unfold normalizedNameserver. now rewrite H.
Qed.

(** The two addresses of the specification. *)
Lemma normalizedNameserver_examples :
  normalizedNameserver (Example.withNameserver "ns.example.org")
  = "ns.example.org:53" /\
  normalizedNameserver (Example.withNameserver "ns.example.org:5353")
  = "ns.example.org:5353".
Proof.
  split; reflexivity.
Qed.

(** An address that [SplitHostPort] rejects for another reason comes back
    unchanged as long as its own text does not read "missing port". *)
Lemma normalizedNameserver_other_error (p : Provider) (e : net.AddrError) :
  net.SplitHostPort (Nameserver p) = inr e ->
  strings.Contains (net.Error e) "missing port" = false ->
  normalizedNameserver p = Nameserver p.
Proof.
  intros H1 H2. unfold normalizedNameserver. now rewrite H1, H2.
Qed.

(** The test on the error is a substring match on its text, which quotes
    the address: an address with too many colons that itself reads
    "missing port" is bracketed and given a port as well. *)
Lemma normalizedNameserver_quoted_address :
  net.SplitHostPort "missing port:1:2"
  = inr {| net.Err := net.tooManyColons; net.Addr := "missing port:1:2" |} /\
  normalizedNameserver (Example.withNameserver "missing port:1:2")
  = "[missing port:1:2]:53" /\
  normalizedNameserver (Example.withNameserver "a:b:c") = "a:b:c".
Proof.
  repeat split.
Qed.

(** C3, at the address of a bracketed IPv6 host without a port: the
    address lacks a port, and the result is neither the address unchanged
    nor the address followed by ":53": the whole bracketed text is put in
    a second pair of brackets. *)
Theorem normalizedNameserver_bracketed_host :
  net.SplitHostPort "[::1]"
  = inr {| net.Err := "missing port in address"; net.Addr := "[::1]" |} /\
  normalizedNameserver (Example.withNameserver "[::1]") = "[[::1]]:53" /\
  normalizedNameserver (Example.withNameserver "[::1]") <> "[::1]:53" /\
  normalizedNameserver (Example.withNameserver "[::1]") <> "[::1]".
Proof.
  repeat split; try reflexivity; vm_compute; discriminate.
Qed.

Section Properties.

Variable World : Type.
Variable lib : Library World.

(** ** [rrFromRecord] *)

Lemma clauseRecord_supported (header : dns.RR_Header) (record : Record_) :
  In (Type_ record) supportedTypes ->
  exists v, clauseRecord header record = Some v /\ dns.Hdr v = header.
Proof.
  unfold supportedTypes, clauseRecord; simpl.
  intros [H | [H | [H | [H | [H | []]]]]]; rewrite <- H; simpl;
    eexists; split; reflexivity.
Qed.

Lemma clauseRecord_unsupported (header : dns.RR_Header) (record : Record_) :
  ~ In (Type_ record) supportedTypes ->
  clauseRecord header record = None.
Proof.
  intro H. unfold clauseRecord.
  repeat match goal with
         | |- context [String.eqb ?a ?b] =>
             destruct (String.eqb_spec a b) as [E | E];
             [ exfalso; apply H; rewrite E; simpl; tauto | clear E ]
         end.
  reflexivity.
Qed.

(** The header every clause copies into its struct. *)
Lemma rrHeader_fields (zone : string) (record : Record_) :
  dns.Name (rrHeader lib zone record) = zone /\
  dns.Class (rrHeader lib zone record) = dns.ClassINET /\
  dns.Ttl (rrHeader lib zone record) = uint32 (TTL record) /\
  dns.Rrtype (rrHeader lib zone record) = StringToType lib (Type_ record).
Proof.
  repeat split.
Qed.

(** For the five types of the switch the function returns its own [rr],
    which is nil, and a nil error. *)
Lemma rrFromRecord_supported_nil (zone : string) (record : Record_) :
  In (Type_ record) supportedTypes ->
  rrFromRecord lib zone record = (dns.nilRR, None).
Proof.
  intro H. unfold rrFromRecord.
  destruct (clauseRecord_supported (rrHeader lib zone record) record H)
    as [v [Hv _]].
  now rewrite Hv.
Qed.

(** C2: for a record whose type is none of A, AAAA, CNAME, MX, TXT,
    [rrFromRecord] returns a nil record together with the error
    "unsupported type <mnemonic>". *)
Theorem rrFromRecord_unsupported (zone : string) (record : Record_) :
  ~ In (Type_ record) supportedTypes ->
  rrFromRecord lib zone record
  = (dns.nilRR, Some (errorString ("unsupported type " ++ Type_ record))).
Proof.
  intro H. unfold rrFromRecord.
  now rewrite (clauseRecord_unsupported _ _ H).
Qed.

(** Mapping back the struct a clause fills (had it been returned) gives the
    zone as name and the whole presentation line as value. *)
Lemma recordFromRR_clauseRecord (zone : string) (record : Record_)
    (v : dns.Resource) :
  clauseRecord (rrHeader lib zone record) record = Some v ->
  recordFromRR lib (Some v)
  = Returned {| Name := zone;
                Type_ := TypeString lib (StringToType lib (Type_ record));
                Value := rrString lib v;
                TTL := uint32 (TTL record) |}.
Proof.
  intro H. unfold clauseRecord in H.
  repeat match type of H with
         | (if ?b then _ else _) = _ => destruct b
         end;
    inversion H; subst; reflexivity.
Qed.

(** C1, at the record A 127.0.0.1: [rrFromRecord] hands back a nil
    record and no error, and the answer-to-record mapping of [GetRecords]
    stops with a nil dereference on it: nothing is mapped back. *)
Theorem roundtrip_A_record_lost :
  rrFromRecord lib Example.zone Example.aRecord = (dns.nilRR, None) /\
  recordFromRR lib (fst (rrFromRecord lib Example.zone Example.aRecord))
  = Panic nilDereference.
Proof.
  split; reflexivity.
Qed.

(** C4, at the TXT record of the specification: the header with the
    zone as owner, class INET and the TTL as [uint32] is built, but the
    record returned is nil and has no header to read. *)
Theorem rrFromRecord_header_not_returned :
  dns.Name (rrHeader lib Example.zone Example.txtRecord) = Example.zone /\
  dns.Class (rrHeader lib Example.zone Example.txtRecord) = dns.ClassINET /\
  dns.Ttl (rrHeader lib Example.zone Example.txtRecord) = 300 /\
  fst (rrFromRecord lib Example.zone Example.txtRecord) = dns.nilRR /\
  dns.Header (fst (rrFromRecord lib Example.zone Example.txtRecord))
  = Panic nilDereference.
Proof.
  repeat split.
Qed.

(** ** TSIG *)

Lemma len_positive (s : string) : (0 <? strings.len s) = true <-> s <> "".
Proof.
  unfold strings.len; destruct s; simpl; split; intro H;
    try discriminate; try reflexivity; try (now contradiction H).
Qed.

Lemma tsigConfigured_true (p : Provider) :
  tsigConfigured p = true <-> TSIGKeyName p <> "" /\ TSIGSecret p <> "".
Proof.
  unfold tsigConfigured.
  rewrite andb_true_iff, !len_positive. tauto.
Qed.

Lemma tsigConfigured_false (p : Provider) :
  tsigConfigured p = false <-> TSIGKeyName p = "" \/ TSIGSecret p = "".
Proof.
  unfold tsigConfigured, strings.len.
  destruct (TSIGKeyName p), (TSIGSecret p); simpl; split; intro H;
    try reflexivity; try discriminate; try (now left); try (now right);
    destruct H; discriminate.
Qed.

(** [dns.Fqdn] gives a name with a trailing dot, whatever [dns.IsFqdn]
    tests besides the last byte. *)
Lemma Fqdn_trailingDot (name : string) :
  (forall n, IsFqdn lib n = true -> trailingDot n) ->
  trailingDot (Fqdn lib name).
Proof.
  intro Hdot. unfold Fqdn. destruct (IsFqdn lib name) eqn:E.
  - now apply Hdot.
  - now exists name.
Qed.

Lemma set_Extra_longer (m : dns.Msg) (r : dns.RR) :
  dns.set_Extra (dns.Extra m ++ [r]) m <> m.
Proof.
  intro H. apply (f_equal dns.Extra) in H. simpl in H.
  apply (f_equal (@List.length dns.RR)) in H.
  rewrite List.length_app in H. simpl in H. lia.
Qed.

(** [makeClient] registers the secret under the normalized key name exactly
    when both the key name and the secret are set. *)
Lemma makeClient_tsig (p : Provider) :
  dns.SingleInflight (makeClient lib p) = true /\
  (TSIGKeyName p <> "" /\ TSIGSecret p <> "" ->
   dns.TsigSecret (makeClient lib p)
   = Some [(Fqdn lib (TSIGKeyName p), TSIGSecret p)]) /\
  (TSIGKeyName p = "" \/ TSIGSecret p = "" ->
   dns.TsigSecret (makeClient lib p) = None).
Proof.
  unfold makeClient. repeat split.
  - now destruct (tsigConfigured p).
  - intro H. apply tsigConfigured_true in H. now rewrite H.
  - intro H. apply tsigConfigured_false in H. now rewrite H.
Qed.

(** X12: [configureMessage] returns a message that differs from the one it
    was given exactly when key name and secret are both non-empty; then the
    difference is one TSIG record appended to the additional section, owned
    by [Fqdn] of the key name, with [Fqdn] of the algorithm name and fudge
    300, both names ending in a dot; otherwise the message is the same.
    The provider and the log of sent messages are left alone. *)
Theorem configureMessage_tsig (msg : dns.Msg) (s : State World) :
  (forall n, IsFqdn lib n = true -> trailingDot n) ->
  let p := provider s in
  exists msg' s',
    configureMessage lib msg s = (Returned msg', s') /\
    provider s' = p /\ sent s' = sent s /\
    (msg' <> msg <-> TSIGKeyName p <> "" /\ TSIGSecret p <> "") /\
    (TSIGKeyName p = "" \/ TSIGSecret p = "" -> msg' = msg) /\
    (TSIGKeyName p <> "" /\ TSIGSecret p <> "" ->
     exists now,
       msg' = dns.set_Extra
                (dns.Extra msg ++
                 [Some {| dns.Hdr := {| dns.Name := Fqdn lib (TSIGKeyName p);
                                        dns.Rrtype := dns.TypeTSIG;
                                        dns.Class := dns.ClassANY;
                                        dns.Ttl := 0; dns.Rdlength := 0 |};
                          dns.Data := dns.TSIG (Fqdn lib (TSIGAlgorithm p))
                                        now 300 (dns.Id msg) |}])
                msg /\
       trailingDot (Fqdn lib (TSIGKeyName p)) /\
       trailingDot (Fqdn lib (TSIGAlgorithm p))).
Proof.
  intros Hdot p.
  unfold configureMessage, bind, getProvider.
  destruct (tsigConfigured (provider s)) eqn:E.
  - pose proof (proj1 (tsigConfigured_true _) E) as Hset.
    unfold withWorld, ret.
    destruct (timeNowUnix lib (world s)) as [now w].
    eexists; eexists; split; [reflexivity |].
    simpl. split; [reflexivity | split; [reflexivity |]].
    split; [| split].
    + split; [intros _; exact Hset | intros _; apply set_Extra_longer].
    + intros [H | H]; [now destruct (proj1 Hset) | now destruct (proj2 Hset)].
    + intros _. exists (dns.uint64 now).
      split; [reflexivity | split; now apply Fqdn_trailingDot].
  - pose proof (proj1 (tsigConfigured_false _) E) as Hunset.
    exists msg, s. unfold ret.
    split; [reflexivity | split; [reflexivity | split; [reflexivity |]]].
    split; [| split].
    + split; [intro H; now contradiction H |].
      intros [H1 H2]. destruct Hunset; contradiction.
    + reflexivity.
    + intros [H1 H2]. destruct Hunset; contradiction.
Qed.

(** ** The update operations *)

Lemma buildAppend_nil (msg : dns.Msg) :
  dns.Question_ msg <> [] -> buildAppend msg [dns.nilRR] = Panic nilDereference.
Proof.
  intro H. unfold buildAppend, dns.Insert.
  destruct (dns.Question_ msg); [now contradiction H | reflexivity].
Qed.

Lemma buildDelete_nil (msg : dns.Msg) :
  dns.Question_ msg <> [] -> buildDelete msg [dns.nilRR] = Panic nilDereference.
Proof.
  reflexivity.
Qed.

Lemma buildSet_nil (msg : dns.Msg) :
  dns.Question_ msg <> [] -> buildSet msg [dns.nilRR] = Panic nilDereference.
Proof.
  reflexivity.
Qed.

(** What [buildSet] makes of a record that is not nil: the directive that
    empties the RRset of its name and type, then the record itself. *)
Lemma buildSet_record (msg : dns.Msg) (q : dns.Question) (qs : list dns.Question)
    (v : dns.Resource) :
  dns.Question_ msg = q :: qs ->
  buildSet msg [Some v]
  = Returned
      (dns.set_Ns
         (dns.Ns msg ++
          [Some {| dns.Hdr := {| dns.Name := dns.Name (dns.Hdr v);
                                 dns.Rrtype := dns.Rrtype (dns.Hdr v);
                                 dns.Class := dns.ClassANY;
                                 dns.Ttl := 0; dns.Rdlength := 0 |};
                   dns.Data := dns.ANY |};
           Some {| dns.Hdr := dns.set_Class (dns.Qclass q) (dns.Hdr v);
                   dns.Data := dns.Data v |}])
         msg).
Proof.
  intro H. unfold buildSet, dns.RemoveRRset, dns.Insert. simpl.
  rewrite H. simpl. rewrite <- List.app_assoc. reflexivity.
Qed.

Lemma updateLoop_nil (build : dns.Msg -> list dns.RR -> outcome dns.Msg)
    (c : dns.Client) (nameserver zone : string) (done : slice Record_)
    (s : State World) :
  updateLoop lib build c nameserver zone [] done s = (Returned (done, None), s).
Proof.
  reflexivity.
Qed.

(** A record of an unsupported type ends the loop with what was done so
    far and the wrapped error; nothing is sent for it. *)
Lemma updateLoop_unsupported_first
    (build : dns.Msg -> list dns.RR -> outcome dns.Msg)
    (c : dns.Client) (nameserver zone : string) (record : Record_)
    (rest : list Record_) (done : slice Record_) (s : State World) :
  ~ In (Type_ record) supportedTypes ->
  updateLoop lib build c nameserver zone (record :: rest) done s
  = (Returned
       (done,
        Some (wrapError
                ("failed to append record: " ++ "unsupported type " ++ Type_ record)
                (errorString ("unsupported type " ++ Type_ record)))),
     s).
Proof.
  intro H. simpl. unfold rrFromRecord.
  now rewrite (clauseRecord_unsupported _ _ H).
Qed.

(** A record of a supported type ends the loop in a panic: the nil record
    of [rrFromRecord] reaches [build] after [SetUpdate] has drawn a
    message id, and nothing is sent. *)
Lemma updateLoop_supported_first
    (build : dns.Msg -> list dns.RR -> outcome dns.Msg)
    (c : dns.Client) (nameserver zone : string) (record : Record_)
    (rest : list Record_) (done : slice Record_) (s : State World) :
  In (Type_ record) supportedTypes ->
  (forall msg, dns.Question_ msg <> [] ->
               build msg [dns.nilRR] = Panic nilDereference) ->
  updateLoop lib build c nameserver zone (record :: rest) done s
  = (Panic nilDereference,
     {| provider := provider s; world := snd (dnsId lib (world s));
        sent := sent s |}).
Proof.
  intros H Hbuild. simpl. rewrite (rrFromRecord_supported_nil _ _ H).
  unfold SetUpdate, withWorld, ret, lift. unfold bind.
  destruct (dnsId lib (world s)) as [id w]. simpl.
  rewrite Hbuild; [reflexivity | simpl; discriminate].
Qed.

Lemma unlock_after_lock (s : State World) :
  locked (mutex (provider s)) = false ->
  set_provider_mutex {| locked := false |}
    (set_provider_mutex {| locked := true |} s) = s.
Proof.
  destruct s as [[ns alg key sec [l]] w log]. simpl. intro H. now subst.
Qed.

(** The frame of an update operation called with the mutex free. *)
Lemma updateRecords_unlocked
    (build : dns.Msg -> list dns.RR -> outcome dns.Msg)
    (zone : string) (records : list Record_) (s : State World) :
  locked (mutex (provider s)) = false ->
  updateRecords lib build zone records s
  = match
      updateLoop lib build (makeClient lib (provider s))
        (normalizedNameserver (provider s)) zone records nilSlice
        (set_provider_mutex {| locked := true |} s)
    with
    | (Blocked, s') => (Blocked, s')
    | (r, s') => (r, set_provider_mutex {| locked := false |} s')
    end.
Proof.
  intro H. unfold updateRecords, bind, Lock. rewrite H.
  unfold deferUnlock, getProvider. reflexivity.
Qed.

(** C6, at the one-record list holding the TXT record of the
    specification: no translation error and no exchange error occurs, yet
    none of the three operations returns the record as applied.  Each ends
    in a nil dereference before anything is sent. *)
Theorem update_of_supported_record_panics (w : World) :
  let s := {| provider := Example.signing; world := w; sent := [] |} in
  result (AppendRecords lib Example.zone [Example.txtRecord] s)
  = Panic nilDereference /\
  result (DeleteRecords lib Example.zone [Example.txtRecord] s)
  = Panic nilDereference /\
  result (SetRecords lib Example.zone [Example.txtRecord] s)
  = Panic nilDereference /\
  sent (after (AppendRecords lib Example.zone [Example.txtRecord] s)) = [] /\
  sent (after (DeleteRecords lib Example.zone [Example.txtRecord] s)) = [] /\
  sent (after (SetRecords lib Example.zone [Example.txtRecord] s)) = [].
Proof.
  intro s. unfold AppendRecords, DeleteRecords, SetRecords.
  rewrite !updateRecords_unlocked by reflexivity.
  rewrite (updateLoop_supported_first buildAppend)
    by first [exact buildAppend_nil | simpl; tauto].
  rewrite (updateLoop_supported_first buildDelete)
    by first [exact buildDelete_nil | simpl; tauto].
  rewrite (updateLoop_supported_first buildSet)
    by first [exact buildSet_nil | simpl; tauto].
  repeat split.
Qed.

(** C7, at the TXT record of the specification: [SetRecords] gets a nil
    record from [rrFromRecord], [msg.RemoveRRset] stops on it, and the call
    ends in a panic with no message built or sent. *)
Theorem SetRecords_builds_no_transaction (w : World) :
  let s := {| provider := Example.signing; world := w; sent := [] |} in
  (forall msg,
     buildSet msg [fst (rrFromRecord lib Example.zone Example.txtRecord)]
     = Panic nilDereference) /\
  SetRecords lib Example.zone [Example.txtRecord] s
  = (Panic nilDereference,
     {| provider := Example.signing; world := snd (dnsId lib w); sent := [] |}).
Proof.
  intro s. split; [reflexivity |].
  unfold SetRecords. rewrite updateRecords_unlocked by reflexivity.
  rewrite (updateLoop_supported_first buildSet);
    [reflexivity | simpl; tauto | exact buildSet_nil].
Qed.

(** C8, at the one-record list holding an SRV record: the error that
    [DeleteRecords] and [SetRecords] return reads "failed to append record",
    the text of [AppendRecords]; it mentions neither deleting nor setting. *)
Theorem DeleteRecords_error_reads_append (w : World) :
  let s := {| provider := Example.signing; world := w; sent := [] |} in
  let e := wrapError "failed to append record: unsupported type SRV"
             (errorString "unsupported type SRV") in
  DeleteRecords lib Example.zone [Example.srvRecord] s
  = (Returned (nilSlice, Some e), s) /\
  SetRecords lib Example.zone [Example.srvRecord] s
  = (Returned (nilSlice, Some e), s) /\
  AppendRecords lib Example.zone [Example.srvRecord] s
  = (Returned (nilSlice, Some e), s) /\
  strings.Contains (Error e) "append" = true /\
  strings.Contains (Error e) "delet" = false /\
  strings.Contains (Error e) "set" = false.
Proof.
  intros s e.
  assert (Hsrv : ~ In (Type_ Example.srvRecord) supportedTypes).
  { simpl. intros [H | [H | [H | [H | [H | []]]]]]; discriminate. }
  unfold DeleteRecords, SetRecords, AppendRecords.
  rewrite !updateRecords_unlocked by reflexivity.
  rewrite !(updateLoop_unsupported_first _ _ _ _ _ _ _ _ Hsrv).
  repeat split.
Qed.

(** C9: called with an empty record list (and the mutex free), each of
    the three operations returns a nil list and a nil error and leaves the
    whole state as it was: nothing is sent, the world is not touched. *)
Theorem empty_records_no_exchange (zone : string) (s : State World) :
  locked (mutex (provider s)) = false ->
  AppendRecords lib zone [] s = (Returned (nilSlice, None), s) /\
  DeleteRecords lib zone [] s = (Returned (nilSlice, None), s) /\
  SetRecords lib zone [] s = (Returned (nilSlice, None), s).
Proof.
  intro H. unfold AppendRecords, DeleteRecords, SetRecords.
  rewrite !updateRecords_unlocked by exact H.
  rewrite !updateLoop_nil, (unlock_after_lock s H).
  repeat split.
Qed.

(** ** The provider's fields across a call *)

Lemma keeps_ret (A : Type) (a : A) : keepsConfig (@ret World A a).
Proof.
  intro s; reflexivity.
Qed.

Lemma keeps_lift (A : Type) (o : outcome A) : keepsConfig (@lift World A o).
Proof.
  intro s; reflexivity.
Qed.

Lemma keeps_getProvider : keepsConfig (@getProvider World).
Proof.
  intro s; reflexivity.
Qed.

Lemma keeps_withWorld (A : Type) (f : World -> A * World) :
  keepsConfig (withWorld f).
Proof.
  intro s. unfold withWorld, after. now destruct (f (world s)).
Qed.

Lemma keeps_Lock : keepsConfig (@Lock World).
Proof.
  intro s. unfold Lock, after. now destruct (locked (mutex (provider s))).
Qed.

Lemma keeps_Exchange (c : dns.Client) (m : dns.Msg) (address : string) :
  keepsConfig (Exchange lib c m address).
Proof.
  intro s. unfold Exchange, after.
  now destruct (netExchange lib c m address (world s)).
Qed.

Lemma keeps_bind (A B : Type) (m : State World -> outcome A * State World)
    (k : A -> State World -> outcome B * State World) :
  keepsConfig m -> (forall a, keepsConfig (k a)) -> keepsConfig (bind m k).
Proof.
  intros Hm Hk s. unfold bind, after in *.
  specialize (Hm s).
  destruct (m s) as [[a | why |] s']; simpl in *.
  - transitivity (config (provider s')); [apply (Hk a s') | exact Hm].
  - exact Hm.
  - exact Hm.
Qed.

Lemma keeps_deferUnlock (A : Type) (body : State World -> outcome A * State World) :
  keepsConfig body -> keepsConfig (deferUnlock body).
Proof.
  intros Hb s. unfold deferUnlock, after in *.
  specialize (Hb s).
  destruct (body s) as [[a | why |] s']; simpl in *; exact Hb.
Qed.

Lemma keeps_SetUpdate (z : string) (m : dns.Msg) :
  keepsConfig (SetUpdate lib z m).
Proof.
  unfold SetUpdate. apply keeps_bind.
  - apply keeps_withWorld.
  - intro id. apply keeps_ret.
Qed.

Lemma keeps_configureMessage (msg : dns.Msg) :
  keepsConfig (configureMessage lib msg).
Proof.
  unfold configureMessage. apply keeps_bind.
  - apply keeps_getProvider.
  - intro p. destruct (tsigConfigured p).
    + apply keeps_bind; [apply keeps_withWorld | intro now; apply keeps_ret].
    + apply keeps_ret.
Qed.

Lemma keeps_updateLoop (build : dns.Msg -> list dns.RR -> outcome dns.Msg)
    (c : dns.Client) (nameserver zone : string) (records : list Record_) :
  forall done, keepsConfig (updateLoop lib build c nameserver zone records done).
Proof.
  induction records as [| record rest IH]; intro done; simpl.
  - apply keeps_ret.
  - destruct (rrFromRecord lib zone record) as [rr [err |]].
    + apply keeps_ret.
    + apply keeps_bind; [apply keeps_SetUpdate | intro msg].
      apply keeps_bind; [apply keeps_lift | intro msg1].
      apply keeps_bind; [apply keeps_configureMessage | intro msg2].
      apply keeps_bind; [apply keeps_Exchange | intros [reply [err |]]].
      * apply keeps_ret.
      * destruct reply as [r |]; [| apply IH].
        destruct (negb (dns.Rcode r =? dns.RcodeSuccess)); [apply keeps_ret | apply IH].
Qed.

Lemma keeps_updateRecords (build : dns.Msg -> list dns.RR -> outcome dns.Msg)
    (zone : string) (records : list Record_) :
  keepsConfig (updateRecords lib build zone records).
Proof.
  unfold updateRecords. apply keeps_bind; [apply keeps_Lock | intros _].
  apply keeps_deferUnlock.
  apply keeps_bind; [apply keeps_getProvider | intro p].
  apply keeps_updateLoop.
Qed.

Lemma keeps_GetRecords (zone : string) : keepsConfig (GetRecords lib zone).
Proof.
  unfold GetRecords. apply keeps_bind; [apply keeps_Lock | intros _].
  apply keeps_deferUnlock.
  apply keeps_bind; [apply keeps_withWorld | intro id].
  apply keeps_bind; [apply keeps_getProvider | intro p].
  apply keeps_bind; [apply keeps_Exchange | intros [[in_ |] [err |]]].
  - apply keeps_ret.
  - apply keeps_bind; [apply keeps_lift | intro fetched; apply keeps_ret].
  - apply keeps_ret.
  - apply keeps_lift.
Qed.

(** C10: from any state, on any zone and record list, and however the
    call ends (a return, a panic, or a wait at the mutex), each of the four
    operations leaves Nameserver, TSIGAlgorithm, TSIGKeyName and TSIGSecret
    with the values they had before the call. *)
Theorem operations_preserve_config (zone : string) (records : list Record_)
    (s : State World) :
  let unchanged (s' : State World) :=
    Nameserver (provider s') = Nameserver (provider s) /\
    TSIGAlgorithm (provider s') = TSIGAlgorithm (provider s) /\
    TSIGKeyName (provider s') = TSIGKeyName (provider s) /\
    TSIGSecret (provider s') = TSIGSecret (provider s) in
  unchanged (after (GetRecords lib zone s)) /\
  unchanged (after (AppendRecords lib zone records s)) /\
  unchanged (after (DeleteRecords lib zone records s)) /\
  unchanged (after (SetRecords lib zone records s)).
Proof.
  assert (fields : forall s' : State World,
             config (provider s') = config (provider s) ->
             Nameserver (provider s') = Nameserver (provider s) /\
             TSIGAlgorithm (provider s') = TSIGAlgorithm (provider s) /\
             TSIGKeyName (provider s') = TSIGKeyName (provider s) /\
             TSIGSecret (provider s') = TSIGSecret (provider s)).
  { intros s' H. unfold config in H. inversion H. auto. }
  cbv zeta.
  split; [apply fields, keeps_GetRecords |].
  split; [apply fields, (keeps_updateRecords buildAppend) |].
  split; [apply fields, (keeps_updateRecords buildDelete) |].
  apply fields, (keeps_updateRecords buildSet).
Qed.

End Properties.

(** ** The theorems at the example library *)

Lemma lastByteIsDot_trailingDot (s : string) :
  Example.lastByteIsDot s = true -> trailingDot s.
Proof.
  unfold Example.lastByteIsDot, strings.byteIs, strings.len.
  induction s as [| a s IH].
  - simpl. discriminate.
  - replace (Z.to_nat (Z.of_nat (String.length (String a s)) - 1))
      with (String.length s) by (simpl String.length; lia).
    destruct s as [| b s'].
    + simpl. intro H.
      destruct (Ascii.eqb_spec a "."); [subst; now exists "" | discriminate].
    + intro H. destruct IH as [t Ht].
      * replace (Z.to_nat (Z.of_nat (String.length (String b s')) - 1))
          with (String.length s') by (simpl String.length; lia).
        exact H.
      * exists (String a t). simpl. now rewrite Ht.
Qed.

(** The SRV record is turned down by name. *)
Lemma rrFromRecord_unsupported_witness :
  ~ In (Type_ Example.srvRecord) supportedTypes /\
  rrFromRecord Example.lib Example.zone Example.srvRecord
  = (dns.nilRR, Some (errorString "unsupported type SRV")).
Proof.
  assert (H : ~ In (Type_ Example.srvRecord) supportedTypes).
  { simpl. intros [H | [H | [H | [H | [H | []]]]]]; discriminate. }
  split; [exact H |].
  exact (rrFromRecord_unsupported nat Example.lib Example.zone
           Example.srvRecord H).
Defined.

(** With the key of the README, a fresh message gets one TSIG record for
    "libdns." and "hmac-sha256." with fudge 300. *)
Lemma configureMessage_tsig_witness :
  let s := Example.start Example.signing in
  let msg := dns.newMsg in
  (forall n, IsFqdn Example.lib n = true -> trailingDot n) /\
  exists msg' s',
    configureMessage Example.lib msg s = (Returned msg', s') /\
    provider s' = Example.signing /\ sent s' = [] /\
    (msg' <> msg <-> "libdns" <> "" /\ TSIGSecret Example.signing <> "") /\
    (exists now,
       dns.Extra msg'
       = [Some {| dns.Hdr := {| dns.Name := "libdns.";
                                dns.Rrtype := dns.TypeTSIG;
                                dns.Class := dns.ClassANY;
                                dns.Ttl := 0; dns.Rdlength := 0 |};
                  dns.Data := dns.TSIG "hmac-sha256." now 300 0 |}]).
Proof.
  intros s msg. split; [exact lastByteIsDot_trailingDot |].
  destruct (configureMessage_tsig nat Example.lib msg s
              lastByteIsDot_trailingDot)
    as [msg' [s' [Hrun [Hp [Hs [Hiff [_ Hset]]]]]]].
  exists msg', s'.
  split; [exact Hrun |]. split; [exact Hp |]. split; [exact Hs |].
  split; [exact Hiff |].
  destruct Hset as [now [Hmsg _]]; [split; discriminate |].
  exists now. rewrite Hmsg. reflexivity.
Defined.

(** The three operations on an empty list, from the initial state. *)
Lemma empty_records_no_exchange_witness :
  let s := Example.start Example.signing in
  locked (mutex (provider s)) = false /\
  AppendRecords Example.lib Example.zone [] s = (Returned (nilSlice, None), s) /\
  DeleteRecords Example.lib Example.zone [] s = (Returned (nilSlice, None), s) /\
  SetRecords Example.lib Example.zone [] s = (Returned (nilSlice, None), s).
Proof.
  intro s. split; [reflexivity |].
  exact (empty_records_no_exchange nat Example.lib Example.zone s eq_refl).
Defined.

(** * Further properties *)

(** ** Bytes of a concatenation *)

Lemma len_append (a b : string) :
  strings.len (a ++ b) = strings.len a + strings.len b.
Proof.
  unfold strings.len. induction a as [| x a IH]; simpl String.length.
  - simpl. lia.
  - cbn [String.append String.length]. lia.
Qed.

Lemma len_nonneg (s : string) : 0 <= strings.len s.
Proof.
  unfold strings.len. lia.
Qed.

Lemma IndexByte_from_app_absent (a b : string) (c : ascii) (i : Z) :
  0 <= i ->
  strings.IndexByte_from a c i < 0 ->
  strings.IndexByte_from (a ++ b) c i
  = strings.IndexByte_from b c (i + strings.len a).
Proof.
  revert i. induction a as [| x a IH]; intros i Hi Habs.
  - simpl. f_equal. unfold strings.len. simpl. lia.
  - simpl in *. destruct (Ascii.eqb x c).
    + lia.
    + rewrite IH by (assumption || lia). f_equal.
      unfold strings.len. simpl String.length. lia.
Qed.

Lemma IndexByte_from_absent_any (s : string) (c : ascii) (i j : Z) :
  0 <= i -> 0 <= j ->
  strings.IndexByte_from s c i < 0 -> strings.IndexByte_from s c j < 0.
Proof.
  revert i j. induction s as [| x s IH]; intros i j Hi Hj H; simpl in *.
  - lia.
  - destruct (Ascii.eqb x c); [lia |].
    apply (IH (i + 1)); (assumption || lia).
Qed.

Lemma lacks_app (c : ascii) (a b : string) :
  lacks c a -> lacks c b -> lacks c (a ++ b).
Proof.
  unfold lacks, strings.IndexByte. intros Ha Hb.
  rewrite IndexByte_from_app_absent by (assumption || lia).
  pose proof (len_nonneg a).
  apply (IndexByte_from_absent_any b c 0); (assumption || lia).
Qed.

Lemma lacks_cons (c x : ascii) (s : string) :
  x <> c -> lacks c s -> lacks c (String x s).
Proof.
  unfold lacks, strings.IndexByte. intros Hx Hs. simpl.
  destruct (Ascii.eqb_spec x c); [contradiction |].
  apply (IndexByte_from_absent_any s c 0); (assumption || lia).
Qed.

Lemma LastIndexByte_from_app (a b : string) (c : ascii) (i last : Z) :
  strings.LastIndexByte_from (a ++ b) c i last
  = strings.LastIndexByte_from b c (i + strings.len a)
      (strings.LastIndexByte_from a c i last).
Proof.
  revert i last. induction a as [| x a IH]; intros i last.
  - simpl. f_equal. unfold strings.len. simpl. lia.
  - cbn [String.append strings.LastIndexByte_from]. rewrite IH. f_equal.
    unfold strings.len. simpl String.length. lia.
Qed.

Lemma substring_all (s : string) : substring 0 (String.length s) s = s.
Proof.
  induction s as [| x s IH]; simpl; [reflexivity | now rewrite IH].
Qed.

Lemma substring_app_left (a b : string) :
  substring 0 (String.length a) (a ++ b) = a.
Proof.
  induction a as [| x a IH]; simpl.
  - now destruct b.
  - now rewrite IH.
Qed.

Lemma substring_app_right (a b : string) :
  substring (String.length a) (String.length b) (a ++ b) = b.
Proof.
  induction a as [| x a IH]; simpl.
  - apply substring_all.
  - exact IH.
Qed.

Lemma slice_app_left (a b : string) :
  strings.slice (a ++ b) 0 (strings.len a) = a.
Proof.
  unfold strings.slice, strings.len.
  rewrite Z.sub_0_r, Nat2Z.id. apply substring_app_left.
Qed.

Lemma slice_app_right (a b : string) :
  strings.slice (a ++ b) (strings.len a) (strings.len (a ++ b)) = b.
Proof.
  rewrite len_append. unfold strings.slice, strings.len.
  replace (Z.of_nat (String.length a) + Z.of_nat (String.length b)
           - Z.of_nat (String.length a)) with (Z.of_nat (String.length b)) by lia.
  rewrite !Nat2Z.id. apply substring_app_right.
Qed.

Lemma slice_all (s : string) : strings.slice s 0 (strings.len s) = s.
Proof.
  unfold strings.slice, strings.len.
  rewrite Z.sub_0_r, Nat2Z.id. apply substring_all.
Qed.

Lemma substring_middle (pre mid suf : string) :
  substring (String.length pre) (String.length mid) (pre ++ mid ++ suf) = mid.
Proof.
  induction pre as [| x pre IH]; simpl.
  - apply substring_app_left.
  - exact IH.
Qed.

Lemma slice_middle (s pre mid suf : string) (lo hi : Z) :
  s = (pre ++ mid ++ suf)%string ->
  lo = strings.len pre -> hi = strings.len pre + strings.len mid ->
  strings.slice s lo hi = mid.
Proof.
  intros -> -> ->. unfold strings.slice, strings.len.
  replace (Z.of_nat (String.length pre) + Z.of_nat (String.length mid)
           - Z.of_nat (String.length pre)) with (Z.of_nat (String.length mid)) by lia.
  rewrite !Nat2Z.id. apply substring_middle.
Qed.

Lemma slice_suffix (s pre suf : string) (lo hi : Z) :
  s = (pre ++ suf)%string -> lo = strings.len pre -> hi = strings.len s ->
  strings.slice s lo hi = suf.
Proof.
  intros -> -> ->. apply slice_app_right.
Qed.

Lemma lacks_leb (c : ascii) (s : string) :
  lacks c s -> (0 <=? strings.IndexByte s c) = false.
Proof.
  unfold lacks. intro H. apply Z.leb_gt. exact H.
Qed.

Lemma lacks_first (c : ascii) (s : string) :
  lacks c s -> strings.byteIs s 0 c = false.
Proof.
  unfold lacks, strings.IndexByte, strings.byteIs.
  destruct s as [| x s]; simpl; [reflexivity |].
  destruct (Ascii.eqb x c); [lia | reflexivity].
Qed.

Lemma LastIndexByte_from_lacks (c : ascii) (s : string) (i last : Z) :
  0 <= i -> lacks c s -> strings.LastIndexByte_from s c i last = last.
Proof.
  intros Hi H. apply LastIndexByte_from_absent; [exact Hi |].
  apply (IndexByte_from_absent_any s c 0); (assumption || lia).
Qed.

(** [SplitHostPort] takes apart what [host:port] puts together. *)
Lemma SplitHostPort_host_port (host port : string) :
  plain host -> plain port ->
  net.SplitHostPort (host ++ ":" ++ port) = inl (host, port).
Proof.
  intros [Hc [Ho Hcl]] [Pc [Po Pcl]].
  pose proof (len_nonneg host) as Hlen.
  assert (Hi : strings.LastIndexByte (host ++ ":" ++ port) ":" = strings.len host).
  { unfold strings.LastIndexByte. rewrite LastIndexByte_from_app.
    rewrite (LastIndexByte_from_lacks ":" host) by (assumption || lia).
    cbn [String.append strings.LastIndexByte_from]. rewrite Ascii.eqb_refl.
    apply LastIndexByte_from_lacks; (assumption || lia). }
  assert (Hopen : lacks "[" (host ++ ":" ++ port)).
  { apply lacks_app; [exact Ho |]. apply lacks_cons; [discriminate | exact Po]. }
  assert (Hclose : lacks "]" (host ++ ":" ++ port)).
  { apply lacks_app; [exact Hcl |]. apply lacks_cons; [discriminate | exact Pcl]. }
  unfold net.SplitHostPort. cbv zeta. rewrite Hi.
  replace (strings.len host <? 0) with false by (symmetry; apply Z.ltb_ge; lia).
  rewrite (lacks_first _ _ Hopen), slice_app_left, (lacks_leb _ _ Hc).
  rewrite slice_all, (lacks_leb _ _ Hopen), (lacks_leb _ _ Hclose).
  rewrite (slice_suffix _ (host ++ ":") port); try reflexivity.
  - now rewrite append_assoc_string.
  - rewrite len_append. reflexivity.
Qed.

(** The same for a bracketed host, which may hold colons. *)
Lemma SplitHostPort_bracketed (host port : string) :
  lacks "[" host -> lacks "]" host -> plain port ->
  net.SplitHostPort ("[" ++ host ++ "]:" ++ port) = inl (host, port).
Proof.
  intros Ho Hcl [Pc [Po Pcl]].
  pose proof (len_nonneg host) as Hlen.
  pose proof (len_nonneg port) as Plen.
  set (hostport := ("[" ++ host ++ "]:" ++ port)%string).
  assert (Hlenhp : strings.len hostport = strings.len host + strings.len port + 3).
  { unfold hostport. rewrite !len_append.
    change (strings.len "[") with 1. change (strings.len "]:") with 2. lia. }
  assert (Hi : strings.LastIndexByte hostport ":" = strings.len host + 2).
  { unfold strings.LastIndexByte, hostport.
    cbn [String.append strings.LastIndexByte_from].
    replace (Ascii.eqb "[" ":") with false by reflexivity.
    rewrite LastIndexByte_from_app.
    cbn [String.append strings.LastIndexByte_from].
    replace (Ascii.eqb "]" ":") with false by reflexivity.
    rewrite Ascii.eqb_refl.
    rewrite LastIndexByte_from_lacks by (assumption || lia). lia. }
  assert (Hend : strings.IndexByte hostport "]" = strings.len host + 1).
  { unfold strings.IndexByte, hostport.
    cbn [String.append strings.IndexByte_from].
    replace (Ascii.eqb "[" "]") with false by reflexivity.
    rewrite IndexByte_from_app_absent.
    - cbn [String.append strings.IndexByte_from]. rewrite Ascii.eqb_refl. lia.
    - lia.
    - apply (IndexByte_from_absent_any host "]" 0); (assumption || lia). }
  unfold net.SplitHostPort. cbv zeta. fold hostport. rewrite Hi, Hend.
  replace (strings.len host + 2 <? 0) with false by (symmetry; apply Z.ltb_ge; lia).
  replace (strings.byteIs hostport 0 "[") with true by reflexivity.
  replace (strings.len host + 1 <? 0) with false by (symmetry; apply Z.ltb_ge; lia).
  replace (strings.len host + 1 + 1 =? strings.len hostport) with false
    by (symmetry; apply Z.eqb_neq; rewrite Hlenhp; lia).
  replace (strings.len host + 1 + 1 =? strings.len host + 2) with true
    by (symmetry; apply Z.eqb_eq; lia).
  rewrite (slice_middle hostport "[" host ("]:" ++ port) 1 (strings.len host + 1));
    [ | reflexivity | reflexivity | change (strings.len "[") with 1; lia ].
  rewrite (slice_suffix hostport "[" (host ++ "]:" ++ port) 1);
    [ | reflexivity | reflexivity | reflexivity ].
  rewrite lacks_leb
    by (apply lacks_app; [exact Ho |];
        apply lacks_cons; [discriminate |];
        apply lacks_cons; [discriminate | exact Po]).
  rewrite (slice_suffix hostport ("[" ++ host ++ "]") (":" ++ port)
             (strings.len host + 1 + 1));
    [ | unfold hostport; simpl; f_equal; now rewrite append_assoc_string
      | rewrite !len_append; change (strings.len "[") with 1;
        change (strings.len "]") with 1; lia
      | reflexivity ].
  rewrite lacks_leb by (apply lacks_cons; [discriminate | exact Pcl]).
  rewrite (slice_suffix hostport ("[" ++ host ++ "]:") port
             (strings.len host + 2 + 1));
    [ reflexivity
    | unfold hostport; simpl; f_equal; now rewrite append_assoc_string
    | rewrite !len_append; change (strings.len "[") with 1;
      change (strings.len "]:") with 2; lia
    | reflexivity ].
Qed.

(** ** [normalizedNameserver] on well-formed addresses *)

Lemma plain_53 : plain "53".
Proof.
  unfold plain, lacks. repeat split; vm_compute; reflexivity.
Qed.

(** [SplitHostPort] undoes [JoinHostPort] for a host without brackets and a
    port without colon or brackets. *)
Lemma SplitHostPort_JoinHostPort (host port : string) :
  lacks "[" host -> lacks "]" host -> plain port ->
  net.SplitHostPort (net.JoinHostPort host port) = inl (host, port).
Proof.
  intros Ho Hcl Hport. unfold net.JoinHostPort.
  destruct (0 <=? strings.IndexByte host ":") eqn:E.
  - now apply SplitHostPort_bracketed.
  - apply SplitHostPort_host_port; [| exact Hport].
    repeat split; try assumption. unfold lacks. now apply Z.leb_gt.
Qed.

(** X1: an address without colon or bracket (a host name, an IPv4
    address) gets ":53" appended; the result splits back into that address
    and port 53, and normalizing it once more changes nothing. *)
Theorem normalizedNameserver_plain_host (p : Provider) :
  plain (Nameserver p) ->
  normalizedNameserver p = (Nameserver p ++ ":53")%string /\
  net.SplitHostPort (normalizedNameserver p) = inl (Nameserver p, "53") /\
  normalizedNameserver (set_Nameserver (normalizedNameserver p) p)
  = normalizedNameserver p.
Proof.
  intros Hplain.
  assert (Hnorm : normalizedNameserver p = (Nameserver p ++ ":53")%string)
    by (apply normalizedNameserver_no_colon, Hplain).
  assert (Hsplit : net.SplitHostPort (Nameserver p ++ ":53")
                   = inl (Nameserver p, "53"))
    by (apply (SplitHostPort_host_port (Nameserver p) "53" Hplain plain_53)).
  rewrite Hnorm. repeat split.
  - exact Hsplit.
  - unfold normalizedNameserver at 1. simpl Nameserver. now rewrite Hsplit.
Qed.

(** X2: an address that already is host and port joined the way
    [net.JoinHostPort] does it (host:port, or [host]:port when the host has
    colons) is returned unchanged, and it splits into that host and port. *)
Theorem normalizedNameserver_joined (p : Provider) (host port : string) :
  lacks "[" host -> lacks "]" host -> plain port ->
  Nameserver p = net.JoinHostPort host port ->
  normalizedNameserver p = Nameserver p /\
  net.SplitHostPort (normalizedNameserver p) = inl (host, port).
Proof.
  intros Ho Hcl Hport Haddr.
  pose proof (SplitHostPort_JoinHostPort host port Ho Hcl Hport) as Hsplit.
  rewrite <- Haddr in Hsplit.
  assert (Hnorm : normalizedNameserver p = Nameserver p)
    by (unfold normalizedNameserver; now rewrite Hsplit).
  rewrite Hnorm. split; [reflexivity | exact Hsplit].
Qed.

(** The name server of the specification. *)
Lemma normalizedNameserver_plain_host_witness :
  let p := Example.withNameserver "ns.example.org" in
  plain (Nameserver p) /\
  normalizedNameserver p = "ns.example.org:53" /\
  net.SplitHostPort (normalizedNameserver p) = inl ("ns.example.org", "53") /\
  normalizedNameserver (set_Nameserver (normalizedNameserver p) p)
  = normalizedNameserver p.
Proof.
  intro p.
  assert (H : plain (Nameserver p))
    by (unfold plain, lacks; repeat split; vm_compute; reflexivity).
  split; [exact H | exact (normalizedNameserver_plain_host p H)].
Defined.

(** An IPv6 name server with its port. *)
Lemma normalizedNameserver_joined_witness :
  let p := Example.withNameserver "[2001:db8::1]:5353" in
  lacks "[" "2001:db8::1" /\ lacks "]" "2001:db8::1" /\ plain "5353" /\
  Nameserver p = net.JoinHostPort "2001:db8::1" "5353" /\
  normalizedNameserver p = "[2001:db8::1]:5353" /\
  net.SplitHostPort (normalizedNameserver p) = inl ("2001:db8::1", "5353").
Proof.
  intro p.
  assert (H1 : lacks "[" "2001:db8::1") by (vm_compute; reflexivity).
  assert (H2 : lacks "]" "2001:db8::1") by (vm_compute; reflexivity).
  assert (H3 : plain "5353")
    by (unfold plain, lacks; repeat split; vm_compute; reflexivity).
  assert (H4 : Nameserver p = net.JoinHostPort "2001:db8::1" "5353")
    by reflexivity.
  split; [exact H1 |]. split; [exact H2 |]. split; [exact H3 |].
  split; [exact H4 |].
  exact (normalizedNameserver_joined p "2001:db8::1" "5353" H1 H2 H3 H4).
Defined.

Section FurtherProperties.

Variable World : Type.
Variable lib : Library World.

(** ** [rrFromRecord], all inputs *)

(** X3: whatever the zone and the record, the record [rrFromRecord]
    returns is nil; the error it returns is nil exactly when the type is one
    of A, AAAA, CNAME, MX, TXT (compared byte for byte). *)
Theorem rrFromRecord_never_a_record (zone : string) (record : Record_) :
  fst (rrFromRecord lib zone record) = dns.nilRR /\
  (snd (rrFromRecord lib zone record) = None
   <-> In (Type_ record) supportedTypes).
Proof.
  destruct (in_dec string_dec (Type_ record) supportedTypes) as [Hin | Hout].
  - rewrite (rrFromRecord_supported_nil World lib zone record Hin).
    split; [reflexivity | split; [intros _; exact Hin | reflexivity]].
  - unfold rrFromRecord.
    rewrite (clauseRecord_unsupported _ _ Hout). simpl.
    split; [reflexivity | split; [discriminate | contradiction]].
Qed.

(** X4: the struct a clause fills depends on the record's type, value
    and TTL and on the zone only: two records that differ in their names
    alone give the same wire record, owned by the zone. *)
Theorem wire_record_ignores_Name (zone : string) (r1 r2 : Record_) :
  Type_ r1 = Type_ r2 -> Value r1 = Value r2 -> TTL r1 = TTL r2 ->
  clauseRecord (rrHeader lib zone r1) r1 = clauseRecord (rrHeader lib zone r2) r2 /\
  (forall v, clauseRecord (rrHeader lib zone r1) r1 = Some v ->
             dns.Name (dns.Hdr v) = zone).
Proof.
  intros Ht Hv Httl. split.
  - unfold clauseRecord, rrHeader. now rewrite Ht, Hv, Httl.
  - intros v H.
    destruct (in_dec string_dec (Type_ r1) supportedTypes) as [Hin | Hout].
    + destruct (clauseRecord_supported (rrHeader lib zone r1) r1 Hin)
        as [v' [Hv' Hhdr]].
      rewrite Hv' in H. inversion H; subst. now rewrite Hhdr.
    + rewrite (clauseRecord_unsupported _ _ Hout) in H. discriminate.
Qed.

(** X5: the TTL written into the header is the record's [time.Duration]
    (a count of nanoseconds) cut to its low 32 bits, with no conversion to
    seconds: it lies in [0, 2^32), it differs from the record's number by a
    multiple of 2^32, its bits 0 to 31 are those of the record's number,
    and it is the record's number exactly when that lies in [0, 2^32). *)
Theorem rrHeader_Ttl_low_32_bits (zone : string) (record : Record_) :
  let ttl := dns.Ttl (rrHeader lib zone record) in
  0 <= ttl < 2 ^ 32 /\
  (exists k, TTL record = ttl + k * 2 ^ 32) /\
  (forall n, 0 <= n < 32 -> Z.testbit ttl n = Z.testbit (TTL record) n) /\
  (ttl = TTL record <-> 0 <= TTL record < 2 ^ 32).
Proof.
  cbv zeta. unfold rrHeader, uint32. cbn [dns.Ttl].
  assert (Hb : 0 <= TTL record mod 2 ^ 32 < 2 ^ 32)
    by (apply Z.mod_pos_bound; lia).
  split; [exact Hb |]. split; [| split; [| split]].
  - exists (TTL record / 2 ^ 32).
    pose proof (Z.div_mod (TTL record) (2 ^ 32)) as H. lia.
  - intros n Hn. apply Z.mod_pow2_bits_low. lia.
  - intro H. rewrite <- H. exact Hb.
  - intro H. now apply Z.mod_small.
Qed.

(** Five minutes, and a negative duration, as the header carries them. *)
Lemma rrHeader_Ttl_wrapped_values (zone : string) (name type value : string) :
  dns.Ttl (rrHeader lib zone {| Name := name; Type_ := type; Value := value;
                                TTL := 300 * 1000000000 |}) = 3647256576 /\
  dns.Ttl (rrHeader lib zone {| Name := name; Type_ := type; Value := value;
                                TTL := -1 |}) = 4294967295.
Proof.
  split; reflexivity.
Qed.

(** ** The client and the message agree on the key *)

(** X6: with key name and secret set, the TSIG record that
    [configureMessage] appends is owned by the very name under which
    [makeClient] holds the secret, so the client finds the secret for the
    message it signs; with either of them empty the client holds no secret
    under any name and the message comes back as it was given. *)
Theorem tsig_key_registered (msg msg' : dns.Msg) (s s' : State World) :
  configureMessage lib msg s = (Returned msg', s') ->
  (TSIGKeyName (provider s) <> "" /\ TSIGSecret (provider s) <> "" ->
   exists t,
     dns.Extra msg' = (dns.Extra msg ++ [Some t])%list /\
     tsigSecretFor (makeClient lib (provider s)) (dns.Name (dns.Hdr t))
     = Some (TSIGSecret (provider s))) /\
  (TSIGKeyName (provider s) = "" \/ TSIGSecret (provider s) = "" ->
   msg' = msg /\
   forall name, tsigSecretFor (makeClient lib (provider s)) name = None).
Proof.
  unfold configureMessage, bind, getProvider, makeClient, tsigSecretFor.
  intro Hrun. split.
  - intro Hset. apply tsigConfigured_true in Hset. rewrite Hset in *.
    unfold withWorld, ret in Hrun.
    destruct (timeNowUnix lib (world s)) as [now w].
    inversion Hrun; subst. eexists. split; [reflexivity |].
    simpl. now rewrite String.eqb_refl.
  - intro Hunset. apply tsigConfigured_false in Hunset. rewrite Hunset in *.
    unfold ret in Hrun. inversion Hrun; subst. split; reflexivity.
Qed.

(** ** The update operations, all inputs *)

Lemma updateRecords_outcomes
    (build : dns.Msg -> list dns.RR -> outcome dns.Msg)
    (zone : string) (records : list Record_) (s : State World) :
  locked (mutex (provider s)) = false ->
  (forall msg, dns.Question_ msg <> [] ->
               build msg [dns.nilRR] = Panic nilDereference) ->
  let r := updateRecords lib build zone records s in
  sent (after r) = sent s /\
  (records = [] -> r = (Returned (nilSlice, None), s)) /\
  (forall record rest,
     records = record :: rest -> ~ In (Type_ record) supportedTypes ->
     r = (Returned
            (nilSlice,
             Some (wrapError
                     ("failed to append record: unsupported type "
                      ++ Type_ record)
                     (errorString ("unsupported type " ++ Type_ record)))),
          s)) /\
  (forall record rest,
     records = record :: rest -> In (Type_ record) supportedTypes ->
     result r = Panic nilDereference).
Proof.
  intros Hfree Hbuild r. subst r.
  rewrite (updateRecords_unlocked World lib build zone records s Hfree).
  destruct records as [| record rest].
  - rewrite updateLoop_nil, (unlock_after_lock World s Hfree).
    repeat split; try reflexivity; intros; discriminate.
  - destruct (in_dec string_dec (Type_ record) supportedTypes) as [Hin | Hout].
    + rewrite (updateLoop_supported_first World lib build _ _ _ _ _ _ _ Hin Hbuild).
      split; [reflexivity |]. split; [discriminate |]. split.
      * intros r' rest' Heq Hno. inversion Heq; subst. contradiction.
      * reflexivity.
    + rewrite (updateLoop_unsupported_first World lib build _ _ _ _ _ _ _ Hout).
      rewrite (unlock_after_lock World s Hfree).
      split; [reflexivity |]. split; [discriminate |]. split.
      * intros r' rest' Heq Hno. inversion Heq; subst. reflexivity.
      * intros r' rest' Heq Hyes. inversion Heq; subst. contradiction.
Qed.

(** X7: called with the mutex free, on any zone and any record list,
    each of [AppendRecords], [DeleteRecords] and [SetRecords] sends nothing
    to the network.  It returns (nil, nil) for the empty list; for a list
    whose first record has an unsupported type it returns a nil list and
    the error "failed to append record: unsupported type <Type>", which
    wraps the error of [rrFromRecord], leaving the state as it was; for a
    list whose first record has a supported type it ends in the nil
    dereference.  Records after the first are never looked at. *)
Theorem update_operations_outcomes (zone : string) (records : list Record_)
    (s : State World) :
  locked (mutex (provider s)) = false ->
  let outcomes (r : outcome (slice Record_ * option error) * State World) :=
    sent (after r) = sent s /\
    (records = [] -> r = (Returned (nilSlice, None), s)) /\
    (forall record rest,
       records = record :: rest -> ~ In (Type_ record) supportedTypes ->
       r = (Returned
              (nilSlice,
               Some (wrapError
                       ("failed to append record: unsupported type "
                        ++ Type_ record)
                       (errorString ("unsupported type " ++ Type_ record)))),
            s)) /\
    (forall record rest,
       records = record :: rest -> In (Type_ record) supportedTypes ->
       result r = Panic nilDereference) in
  outcomes (AppendRecords lib zone records s) /\
  outcomes (DeleteRecords lib zone records s) /\
  outcomes (SetRecords lib zone records s).
Proof.
  intros Hfree outcomes. subst outcomes. cbv beta.
  split; [| split].
  - exact (updateRecords_outcomes buildAppend zone records s Hfree
             buildAppend_nil).
  - exact (updateRecords_outcomes buildDelete zone records s Hfree
             buildDelete_nil).
  - exact (updateRecords_outcomes buildSet zone records s Hfree buildSet_nil).
Qed.

(** ** The mutex across a call *)

Lemma whole_ret (A : Type) (a : A) : keepsProvider (@ret World A a).
Proof.
  intro s. split; [reflexivity | discriminate].
Qed.

Lemma whole_lift (A : Type) (o : outcome A) :
  o <> Blocked -> keepsProvider (@lift World A o).
Proof.
  intros H s. split; [reflexivity | exact H].
Qed.

Lemma whole_getProvider : keepsProvider (@getProvider World).
Proof.
  intro s. split; [reflexivity | discriminate].
Qed.

Lemma whole_withWorld (A : Type) (f : World -> A * World) :
  keepsProvider (withWorld f).
Proof.
  intro s. unfold withWorld, after, result.
  destruct (f (world s)). split; [reflexivity | discriminate].
Qed.

Lemma whole_Exchange (c : dns.Client) (m : dns.Msg) (address : string) :
  keepsProvider (Exchange lib c m address).
Proof.
  intro s. unfold Exchange, after, result.
  destruct (netExchange lib c m address (world s)).
  split; [reflexivity | discriminate].
Qed.

Lemma whole_bind (A B : Type) (m : State World -> outcome A * State World)
    (k : A -> State World -> outcome B * State World) :
  keepsProvider m -> (forall a, keepsProvider (k a)) ->
  keepsProvider (bind m k).
Proof.
  intros Hm Hk s. unfold bind, after, result in *.
  destruct (Hm s) as [Hp Hb].
  destruct (m s) as [[a | why |] s']; simpl in *.
  - destruct (Hk a s') as [Hp' Hb']. unfold after, result in Hp', Hb'.
    split; [now rewrite Hp' | exact Hb'].
  - split; [exact Hp | discriminate].
  - now contradiction Hb.
Qed.

Lemma Insert_loop_returns_or_panics (qclass : Z) (rr ns : list dns.RR) :
  dns.Insert_loop qclass ns rr <> Blocked.
Proof.
  revert ns. induction rr as [| [v |] rest IH]; intro ns; simpl.
  - discriminate.
  - apply IH.
  - discriminate.
Qed.

Lemma Remove_loop_returns_or_panics (rr ns : list dns.RR) :
  dns.Remove_loop ns rr <> Blocked.
Proof.
  revert ns. induction rr as [| [v |] rest IH]; intro ns; simpl.
  - discriminate.
  - apply IH.
  - discriminate.
Qed.

Lemma RemoveRRset_loop_returns_or_panics (rr ns : list dns.RR) :
  dns.RemoveRRset_loop ns rr <> Blocked.
Proof.
  revert ns. induction rr as [| [v |] rest IH]; intro ns; simpl.
  - discriminate.
  - apply IH.
  - discriminate.
Qed.

Lemma Insert_returns_or_panics (msg : dns.Msg) (rrs : list dns.RR) :
  dns.Insert msg rrs <> Blocked.
Proof.
  unfold dns.Insert. destruct (dns.Question_ msg) as [| q qs]; [discriminate |].
  pose proof (Insert_loop_returns_or_panics (dns.Qclass q) rrs (dns.Ns msg)).
  destruct (dns.Insert_loop (dns.Qclass q) (dns.Ns msg) rrs);
    [discriminate | discriminate | contradiction].
Qed.

Lemma buildAppend_returns_or_panics (msg : dns.Msg) (rrs : list dns.RR) :
  buildAppend msg rrs <> Blocked.
Proof.
  apply Insert_returns_or_panics.
Qed.

Lemma buildDelete_returns_or_panics (msg : dns.Msg) (rrs : list dns.RR) :
  buildDelete msg rrs <> Blocked.
Proof.
  unfold buildDelete, dns.Remove.
  pose proof (Remove_loop_returns_or_panics rrs (dns.Ns msg)).
  destruct (dns.Remove_loop (dns.Ns msg) rrs);
    [discriminate | discriminate | contradiction].
Qed.

Lemma buildSet_returns_or_panics (msg : dns.Msg) (rrs : list dns.RR) :
  buildSet msg rrs <> Blocked.
Proof.
  unfold buildSet, dns.RemoveRRset.
  pose proof (RemoveRRset_loop_returns_or_panics rrs (dns.Ns msg)).
  destruct (dns.RemoveRRset_loop (dns.Ns msg) rrs);
    [apply Insert_returns_or_panics | discriminate | contradiction].
Qed.

Lemma collectRecords_returns_or_panics (answer : list dns.RR)
    (acc : slice Record_) :
  collectRecords lib answer acc <> Blocked.
Proof.
  revert acc. induction answer as [| [v |] rest IH]; intro acc; simpl.
  - discriminate.
  - apply IH.
  - discriminate.
Qed.

Lemma whole_SetUpdate (z : string) (m : dns.Msg) :
  keepsProvider (SetUpdate lib z m).
Proof.
  unfold SetUpdate. apply whole_bind.
  - apply whole_withWorld.
  - intro id. apply whole_ret.
Qed.

Lemma whole_configureMessage (msg : dns.Msg) :
  keepsProvider (configureMessage lib msg).
Proof.
  unfold configureMessage. apply whole_bind.
  - apply whole_getProvider.
  - intro p. destruct (tsigConfigured p).
    + apply whole_bind; [apply whole_withWorld | intro now; apply whole_ret].
    + apply whole_ret.
Qed.

Lemma whole_updateLoop (build : dns.Msg -> list dns.RR -> outcome dns.Msg)
    (c : dns.Client) (nameserver zone : string) (records : list Record_) :
  (forall msg rrs, build msg rrs <> Blocked) ->
  forall done,
    keepsProvider (updateLoop lib build c nameserver zone records done).
Proof.
  intro Hbuild.
  induction records as [| record rest IH]; intro done; simpl.
  - apply whole_ret.
  - destruct (rrFromRecord lib zone record) as [rr [err |]].
    + apply whole_ret.
    + apply whole_bind; [apply whole_SetUpdate | intro msg].
      apply whole_bind; [apply whole_lift, Hbuild | intro msg1].
      apply whole_bind; [apply whole_configureMessage | intro msg2].
      apply whole_bind; [apply whole_Exchange | intros [reply [err |]]].
      * apply whole_ret.
      * destruct reply as [r |]; [| apply IH].
        destruct (negb (dns.Rcode r =? dns.RcodeSuccess));
          [apply whole_ret | apply IH].
Qed.

(** A body run between [Lock] and the deferred [Unlock]. *)
Lemma locked_call_restores (A : Type)
    (body : State World -> outcome A * State World) (s : State World) :
  keepsProvider body ->
  let r := bind Lock (fun _ => deferUnlock body) s in
  provider (after r) = provider s /\
  (locked (mutex (provider s)) = true -> r = (Blocked, s)) /\
  (locked (mutex (provider s)) = false -> result r <> Blocked).
Proof.
  intros Hbody r. subst r. unfold bind, Lock.
  destruct (locked (mutex (provider s))) eqn:Hlock.
  - split; [reflexivity | split; [reflexivity | discriminate]].
  - unfold deferUnlock, after, result.
    destruct (Hbody (set_provider_mutex {| locked := true |} s)) as [Hp Hb].
    unfold after, result in Hp, Hb.
    destruct (body (set_provider_mutex {| locked := true |} s))
      as [[a | why |] s']; simpl in *.
    + split; [| split; [discriminate | discriminate]].
      rewrite Hp. destruct s as [[ns alg key sec [l]] w log].
      simpl in *. now subst.
    + split; [| split; [discriminate | discriminate]].
      rewrite Hp. destruct s as [[ns alg key sec [l]] w log].
      simpl in *. now subst.
    + now contradiction Hb.
Qed.

(** X8: every path of the four operations gives the mutex back.  After
    a call that returned or panicked the provider, mutex included, is what
    it was before; a call that finds the mutex held waits, having changed
    and sent nothing; a call that finds it free never waits. *)
Theorem calls_restore_provider (zone : string) (records : list Record_)
    (s : State World) :
  let restores (A : Type) (r : outcome A * State World) :=
    provider (after r) = provider s /\
    (locked (mutex (provider s)) = true -> r = (Blocked, s)) /\
    (locked (mutex (provider s)) = false -> result r <> Blocked) in
  restores _ (GetRecords lib zone s) /\
  restores _ (AppendRecords lib zone records s) /\
  restores _ (DeleteRecords lib zone records s) /\
  restores _ (SetRecords lib zone records s).
Proof.
  cbv zeta beta.
  split; [| split; [| split]].
  - unfold GetRecords. apply locked_call_restores.
    apply whole_bind; [apply whole_withWorld | intro id].
    apply whole_bind; [apply whole_getProvider | intro p].
    apply whole_bind; [apply whole_Exchange | intros [[in_ |] [err |]]].
    + apply whole_ret.
    + apply whole_bind;
        [apply whole_lift, collectRecords_returns_or_panics
        | intro f; apply whole_ret].
    + apply whole_ret.
    + apply whole_lift. discriminate.
  - unfold AppendRecords, updateRecords. apply locked_call_restores.
    apply whole_bind; [apply whole_getProvider | intro p].
    apply whole_updateLoop, buildAppend_returns_or_panics.
  - unfold DeleteRecords, updateRecords. apply locked_call_restores.
    apply whole_bind; [apply whole_getProvider | intro p].
    apply whole_updateLoop, buildDelete_returns_or_panics.
  - unfold SetRecords, updateRecords. apply locked_call_restores.
    apply whole_bind; [apply whole_getProvider | intro p].
    apply whole_updateLoop, buildSet_returns_or_panics.
Qed.

(** ** [GetRecords] *)

Lemma collectRecords_map (vs : list dns.Resource) (l : list Record_) :
  collectRecords lib (map Some vs) (Some l)
  = Returned (Some (l ++ map (fetched lib) vs)%list).
Proof.
  revert l. induction vs as [| v vs IH]; intro l; simpl.
  - now rewrite List.app_nil_r.
  - unfold append. simpl elements. rewrite IH, <- List.app_assoc. reflexivity.
Qed.

(** One call of [GetRecords] with the mutex free, in terms of the id drawn
    and of what the network gave back. *)
Lemma GetRecords_run (zone : string) (s : State World) (id : Z) (w1 w2 : World)
    (reply : option dns.Msg * option error) :
  locked (mutex (provider s)) = false ->
  dnsId lib (world s) = (id, w1) ->
  netExchange lib udpClient (anyQuery zone id)
    (normalizedNameserver (provider s)) w1 = (reply, w2) ->
  GetRecords lib zone s
  = (match reply with
     | (_, Some err) => Returned (nilSlice, Some err)
     | (None, None) => Panic nilDereference
     | (Some in_, None) =>
         match collectRecords lib (dns.Answer in_) (Some []) with
         | Returned fetchedRecords => Returned (fetchedRecords, None)
         | Panic why => Panic why
         | Blocked => Blocked
         end
     end,
     {| provider := provider s; world := w2;
        sent := (sent s ++ [(anyQuery zone id,
                             normalizedNameserver (provider s))])%list |}).
Proof.
  intros Hfree Hid Hex.
  destruct s as [[ns alg key sec [l]] w log].
  cbn [provider world sent mutex locked] in *. subst l.
  unfold GetRecords, bind, Lock. cbn [provider mutex locked].
  unfold deferUnlock, withWorld, getProvider, dnsExchange, Exchange.
  cbn [world provider sent set_provider_mutex]. rewrite Hid.
  cbn [world provider sent].
  change (netExchange lib _ _ _ w1)
    with (netExchange lib udpClient (anyQuery zone id)
            (normalizedNameserver
               {| Nameserver := ns; TSIGAlgorithm := alg; TSIGKeyName := key;
                  TSIGSecret := sec; mutex := {| locked := false |} |}) w1).
  rewrite Hex.
  destruct reply as [[in_ |] [err |]]; unfold ret, lift.
  - reflexivity.
  - pose proof (collectRecords_returns_or_panics (dns.Answer in_) (Some [])) as Hb.
    destruct (collectRecords lib (dns.Answer in_) (Some []));
      [reflexivity | reflexivity | contradiction].
  - reflexivity.
  - reflexivity.
Qed.

(** X9: called with the mutex free, [GetRecords] hands exactly one
    message to the network, addressed to the normalized name server: a
    query with recursion desired and the single question (zone, ANY, INET).
    Its additional section is empty: the query carries no TSIG record, also
    on a provider whose key name and secret are set. *)
Theorem GetRecords_sends_one_unsigned_query (zone : string) (s : State World) :
  locked (mutex (provider s)) = false ->
  exists m,
    sent (after (GetRecords lib zone s))
    = (sent s ++ [(m, normalizedNameserver (provider s))])%list /\
    dns.Extra m = [] /\
    dns.Question_ m = [ {| dns.QName := zone; dns.Qtype := dns.TypeANY;
                           dns.Qclass := dns.ClassINET |} ] /\
    dns.RecursionDesired m = true /\
    dns.Opcode m = dns.OpcodeQuery /\
    dns.Id m = fst (dnsId lib (world s)).
Proof.
  intro Hfree.
  destruct (dnsId lib (world s)) as [id w1] eqn:Hid.
  destruct (netExchange lib udpClient (anyQuery zone id)
              (normalizedNameserver (provider s)) w1) as [reply w2] eqn:Hex.
  rewrite (GetRecords_run zone s id w1 w2 reply Hfree Hid Hex).
  exists (anyQuery zone id). repeat split.
Qed.

(** X10: when the exchange ends with an error, [GetRecords] returns a
    nil list and that same error value, not wrapped and whatever reply came
    with it; the mutex is free again and the one query is on the log. *)
Theorem GetRecords_exchange_error (zone : string) (s : State World) (id : Z)
    (w1 w2 : World) (reply : option dns.Msg) (e : error) :
  locked (mutex (provider s)) = false ->
  dnsId lib (world s) = (id, w1) ->
  netExchange lib udpClient (anyQuery zone id)
    (normalizedNameserver (provider s)) w1 = ((reply, Some e), w2) ->
  GetRecords lib zone s
  = (Returned (nilSlice, Some e),
     {| provider := provider s; world := w2;
        sent := (sent s ++ [(anyQuery zone id,
                             normalizedNameserver (provider s))])%list |}).
Proof.
  intros Hfree Hid Hex.
  rewrite (GetRecords_run zone s id w1 w2 _ Hfree Hid Hex).
  now destruct reply.
Qed.

(** X11: when the exchange gives a reply and no error, [GetRecords]
    returns one record per answer, in the order of the answer section and
    leaving none out: name and TTL are those of the answer's header, the
    type is the mnemonic of its type code and the value its presentation
    string.  The list is not nil, also when the answer section is empty. *)
Theorem GetRecords_answers_in_order (zone : string) (s : State World) (id : Z)
    (w1 w2 : World) (in_ : dns.Msg) (vs : list dns.Resource) :
  locked (mutex (provider s)) = false ->
  dnsId lib (world s) = (id, w1) ->
  netExchange lib udpClient (anyQuery zone id)
    (normalizedNameserver (provider s)) w1 = ((Some in_, None), w2) ->
  dns.Answer in_ = map Some vs ->
  GetRecords lib zone s
  = (Returned (Some (map (fetched lib) vs), None),
     {| provider := provider s; world := w2;
        sent := (sent s ++ [(anyQuery zone id,
                             normalizedNameserver (provider s))])%list |}).
Proof.
  intros Hfree Hid Hex Hanswer.
  rewrite (GetRecords_run zone s id w1 w2 _ Hfree Hid Hex).
  now rewrite Hanswer, collectRecords_map.
Qed.

End FurtherProperties.

(** ** The further properties at the example worlds *)

(** Two TXT records of the zone that differ in their names. *)
Lemma wire_record_ignores_Name_witness :
  let r2 := {| Name := "other.example.org."; Type_ := "TXT"; Value := "v1";
               TTL := 300 |} in
  Type_ Example.txtRecord = Type_ r2 /\ Value Example.txtRecord = Value r2 /\
  TTL Example.txtRecord = TTL r2 /\
  clauseRecord (rrHeader Example.lib Example.zone Example.txtRecord)
    Example.txtRecord
  = clauseRecord (rrHeader Example.lib Example.zone r2) r2.
Proof.
  intro r2.
  split; [reflexivity |]. split; [reflexivity |]. split; [reflexivity |].
  exact (proj1 (wire_record_ignores_Name nat Example.lib Example.zone
                  Example.txtRecord r2 eq_refl eq_refl eq_refl)).
Defined.

(** The key of the README: the client holds the secret under "libdns.",
    the owner of the TSIG record. *)
Lemma tsig_key_registered_witness :
  let s := Example.start Example.signing in
  let msg' := dns.SetTsig dns.newMsg "libdns." "hmac-sha256." 300 1600000000 in
  configureMessage Example.lib dns.newMsg s = (Returned msg', s) /\
  exists t,
    dns.Extra msg' = [Some t] /\
    tsigSecretFor (makeClient Example.lib Example.signing)
      (dns.Name (dns.Hdr t))
    = Some "rfXPtMx3r1kl0QzpuwBtexbl2pUJesmZc35UcvzGdwE=".
Proof.
  intros s msg'. split; [reflexivity |].
  apply (proj1 (tsig_key_registered nat Example.lib dns.newMsg msg' s s
                  eq_refl)).
  split; discriminate.
Defined.

(** An SRV record first: the TXT record behind it is not reached. *)
Lemma update_operations_outcomes_witness :
  let s := Example.start Example.signing in
  let records := [Example.srvRecord; Example.txtRecord] in
  let e := wrapError "failed to append record: unsupported type SRV"
             (errorString "unsupported type SRV") in
  locked (mutex (provider s)) = false /\
  AppendRecords Example.lib Example.zone records s
  = (Returned (nilSlice, Some e), s) /\
  DeleteRecords Example.lib Example.zone records s
  = (Returned (nilSlice, Some e), s) /\
  SetRecords Example.lib Example.zone records s
  = (Returned (nilSlice, Some e), s).
Proof.
  intros s records e.
  assert (Hsrv : ~ In (Type_ Example.srvRecord) supportedTypes).
  { simpl. intros [H | [H | [H | [H | [H | []]]]]]; discriminate. }
  destruct (update_operations_outcomes nat Example.lib Example.zone records s
              eq_refl) as [Ha [Hd Hs]].
  split; [reflexivity |].
  split; [| split].
  - exact (proj1 (proj2 (proj2 Ha)) _ _ eq_refl Hsrv).
  - exact (proj1 (proj2 (proj2 Hd)) _ _ eq_refl Hsrv).
  - exact (proj1 (proj2 (proj2 Hs)) _ _ eq_refl Hsrv).
Defined.

(** A provider with a TSIG key: its query is not signed. *)
Lemma GetRecords_sends_one_unsigned_query_witness :
  let s := Example.start Example.signing in
  locked (mutex (provider s)) = false /\
  exists m,
    sent (after (GetRecords Example.lib Example.zone s))
    = [(m, "ns.example.org:53")] /\
    dns.Extra m = [] /\
    dns.Question_ m = [ {| dns.QName := "example.org.";
                           dns.Qtype := dns.TypeANY;
                           dns.Qclass := dns.ClassINET |} ].
Proof.
  intro s. split; [reflexivity |].
  destruct (GetRecords_sends_one_unsigned_query nat Example.lib Example.zone s
              eq_refl) as [m [Hsent [Hextra [Hq _]]]].
  exists m. split; [exact Hsent | split; [exact Hextra | exact Hq]].
Defined.

(** The name server cannot be reached. *)
Lemma GetRecords_exchange_error_witness :
  let s := Example.start Example.signing in
  locked (mutex (provider s)) = false /\
  result (GetRecords Scenario.unreachable Example.zone s)
  = Returned (nilSlice, Some Scenario.timeout).
Proof.
  intro s. split; [reflexivity |].
  rewrite (GetRecords_exchange_error nat Scenario.unreachable Example.zone s
             0 1%nat 2%nat None Scenario.timeout eq_refl eq_refl eq_refl).
  reflexivity.
Defined.

(** The server answers with its SOA record and a TXT record. *)
Lemma GetRecords_answers_in_order_witness :
  let s := Example.start Example.signing in
  locked (mutex (provider s)) = false /\
  result (GetRecords Scenario.answering Example.zone s)
  = Returned
      (Some [ {| Name := "example.org."; Type_ := "TYPE";
                 Value := "example.org."; TTL := 3600 |};
              {| Name := "test.example.org."; Type_ := "TXT";
                 Value := "test.example.org."; TTL := 300 |} ],
       None).
Proof.
  intro s. split; [reflexivity |].
  rewrite (GetRecords_answers_in_order nat Scenario.answering Example.zone s
             0 1%nat 2%nat _ [Scenario.soa; Scenario.txt]
             eq_refl eq_refl eq_refl eq_refl).
  reflexivity.
Defined.

(** ** What goes out on a provider with a TSIG key *)

Section Signing.

Variable World : Type.
Variable lib : Library World.

(** C5, at the provider with the key of the README (key name and secret
    both set): the one message [GetRecords] sends has an empty additional
    section, so it carries no TSIG record, although [configureMessage] on
    this provider adds a record to any message it is given; and the three
    update operations, which do call [configureMessage], send nothing for
    the TXT record of the specification.  No message that leaves the
    provider is signed. *)
Theorem configured_key_signs_nothing_sent (w : World) :
  let s := {| provider := Example.signing; world := w; sent := [] |} in
  tsigConfigured Example.signing = true /\
  (exists m,
     sent (after (GetRecords lib Example.zone s)) = [(m, "ns.example.org:53")] /\
     dns.Extra m = []) /\
  (forall msg, exists msg' s',
     configureMessage lib msg s = (Returned msg', s') /\
     List.length (dns.Extra msg') = S (List.length (dns.Extra msg))) /\
  sent (after (AppendRecords lib Example.zone [Example.txtRecord] s)) = [] /\
  sent (after (DeleteRecords lib Example.zone [Example.txtRecord] s)) = [] /\
  sent (after (SetRecords lib Example.zone [Example.txtRecord] s)) = [].
Proof.
  intro s. split; [reflexivity |]. split; [| split].
  - destruct (dnsId lib w) as [id w1] eqn:Hid.
    destruct (netExchange lib udpClient (anyQuery Example.zone id)
                (normalizedNameserver (provider s)) w1) as [reply w2] eqn:Hex.
    rewrite (GetRecords_run World lib Example.zone s id w1 w2 reply
               eq_refl Hid Hex).
    exists (anyQuery Example.zone id). split; reflexivity.
  - intro msg. subst s.
    unfold configureMessage, bind, getProvider, withWorld, ret.
    cbn [provider].
    replace (tsigConfigured Example.signing) with true by reflexivity.
    cbn [provider world sent].
    destruct (timeNowUnix lib w) as [now w1].
    eexists. eexists. split; [reflexivity |].
    unfold dns.SetTsig. simpl dns.Extra.
    rewrite List.length_app. simpl. lia.
  - unfold AppendRecords, DeleteRecords, SetRecords.
    rewrite !updateRecords_unlocked by reflexivity.
    rewrite (updateLoop_supported_first World lib buildAppend)
      by first [exact buildAppend_nil | simpl; tauto].
    rewrite (updateLoop_supported_first World lib buildDelete)
      by first [exact buildDelete_nil | simpl; tauto].
    rewrite (updateLoop_supported_first World lib buildSet)
      by first [exact buildSet_nil | simpl; tauto].
    repeat split.
Qed.

End Signing.
